(** * Crypto assets monitoring: the exchange models

    A shallow embedding of [crypto_assets/exchange/models.py]: the
    [Exchange], [Coin], [Transaction] and [Importer] models, their derived
    properties, and the parts of the Python runtime they rest on
    ([decimal.Decimal] arithmetic under the default context, integer
    formatting with thousands separators, Django's [transaction.atomic] and
    [transaction.on_commit]). *)

From stdpp Require Import base option list gmap strings.
From Stdlib Require Import ZArith QArith Lia Bool Ascii String DecimalString DecimalN.

Local Open Scope Z_scope.

(** ** Exceptions and results *)

(** The exceptions the modelled code can raise.  [Exception msg] is the plain
    [raise Exception(msg)] of the source; [PlatformError] wraps whatever an
    exchange integration ([platforms/wallex.py], [platforms/bitpin.py]) raises,
    so that [ZeroDivisionError] and the others below always originate in the
    code modelled here. *)
Inductive exn : Type :=
| Exception (msg : string)
| AttributeError
| TypeError
| ValueError
| ZeroDivisionError
| OverflowError
| InvalidOperation
| DatabaseError (what : string)
| PlatformError (what : string).

Inductive result (A : Type) : Type :=
| Ok (a : A)
| Raise (e : exn).

Arguments Ok {A} a.
Arguments Raise {A} e.

Definition bind {A B : Type} (r : result A) (k : A -> result B) : result B :=
  match r with
  | Ok a => k a
  | Raise e => Raise e
  end.

Notation "'let*' x := r 'in' k" := (bind r (fun x => k))
  (at level 10, x name, r at level 100, k at level 200, only parsing).

(** ** Python's [decimal] module, as far as the models use it *)

Module decimal.

(** A finite [Decimal]: sign, coefficient and exponent, the number
    [(-1)^sign * coef * 10^exp].  Negative zero and trailing zeros are
    distinct representations, as in Python.  The exponent limits of the
    context ([Emax], [Emin] = +-999999) are not modelled. *)
Record Decimal : Type := mkDecimal {
  dsign : bool;
  dcoef : N;
  dexp : Z
}.

(** [getcontext().prec] of the default context. *)
Definition prec : Z := 28.

Definition coefZ (d : Decimal) : Z := Z.of_N (dcoef d).

Definition make (s : bool) (c : Z) (e : Z) : Decimal :=
  {| dsign := s; dcoef := Z.to_N c; dexp := e |}.

(** Number of decimal digits of a non-negative integer (0 for 0). *)
Fixpoint digits_fuel (fuel : nat) (n : Z) : Z :=
  match fuel with
  | O => 0
  | S f => if n <=? 0 then 0 else 1 + digits_fuel f (n / 10)
  end.

Definition digits (n : Z) : Z := digits_fuel (S (Z.to_nat (Z.log2 n))) n.

(** ROUND_HALF_EVEN on a quotient [q] with remainder [r] out of [2 * half]. *)
Definition round_half_even (q r half : Z) : Z :=
  if (half <? r) || ((r =? half) && Z.odd q) then q + 1 else q.

(** Drop the last [k > 0] digits of [c], rounding half to even. *)
Definition drop_digits (c k : Z) : Z :=
  round_half_even (c / 10 ^ k) (c mod 10 ^ k) (5 * 10 ^ (k - 1)).

(** The context's rounding of an exact result to [prec] significant digits. *)
Definition fix_prec (s : bool) (c e : Z) : Decimal :=
  if c <? 10 ^ prec then make s c e
  else
    let k := digits c - prec in
    let q := drop_digits c k in
    if q =? 10 ^ prec then make s (10 ^ (prec - 1)) (e + k + 1)
    else make s q (e + k).

(** The exact product, before the context rounds it. *)
Definition mul_exact (a b : Decimal) : Decimal :=
  make (xorb (dsign a) (dsign b)) (coefZ a * coefZ b) (dexp a + dexp b).

(** [a * b] *)
Definition mul (a b : Decimal) : Decimal :=
  fix_prec (xorb (dsign a) (dsign b)) (coefZ a * coefZ b) (dexp a + dexp b).

(** [Decimal(z)] for a Python int: exact. *)
Definition of_int (z : Z) : Decimal := make (z <? 0) (Z.abs z) 0.

(** [int(d)]: truncation toward zero. *)
Definition to_int (d : Decimal) : Z :=
  let m := if 0 <=? dexp d then coefZ d * 10 ^ dexp d
           else coefZ d / 10 ^ (- dexp d) in
  if dsign d then - m else m.

(** [bool(d)] is [False] exactly for the zeros. *)
Definition is_zero (d : Decimal) : bool := (coefZ d =? 0).

(** [round(d, n)]: [d.quantize(Decimal(10) ** -n, ROUND_HALF_EVEN)], which
    raises [InvalidOperation] when the result needs more than [prec]
    digits. *)
Definition round (d : Decimal) (n : Z) : result Decimal :=
  let c := if - n <=? dexp d then coefZ d * 10 ^ (dexp d + n)
           else drop_digits (coefZ d) (- n - dexp d) in
  if 10 ^ prec <=? c then Raise InvalidOperation
  else Ok (make (dsign d) c (- n)).

(** The integer [sign * coef], and the numerator and denominator of the
    exact value [sign * coef * 10^exp]. *)
Definition signed_coef (d : Decimal) : Z :=
  if dsign d then - coefZ d else coefZ d.

Definition numerator (d : Decimal) : Z := signed_coef d * 10 ^ Z.max 0 (dexp d).

Definition denominator (d : Decimal) : Z := 10 ^ Z.max 0 (- dexp d).

(** The specification's reading of [int(a * b)]: the product in exact
    arithmetic on the two values, then truncation toward zero. *)
Definition exact_product_truncated (a b : Decimal) : Z :=
  Z.quot (numerator a * numerator b) (denominator a * denominator b).

(** [r] is [d] rounded to [n] decimal places: exponent [-n], same sign, the
    same value when [d] has no more than [n] decimals, a nearest value
    otherwise. *)
Definition rounded_to (n : Z) (d r : Decimal) : Prop :=
  dexp r = - n /\ dsign r = dsign d /\
  (- n <= dexp d -> coefZ r = coefZ d * 10 ^ (dexp d + n)) /\
  (dexp d < - n ->
     2 * Z.abs (coefZ d - coefZ r * 10 ^ (- n - dexp d)) <= 10 ^ (- n - dexp d)).

(** [q * 10^k] is a multiple of [10^k] nearest to [c], and of two equally
    near ones the one with [q] even. *)
Definition nearest_even (c k q : Z) : Prop :=
  2 * Z.abs (c - q * 10 ^ k) <= 10 ^ k /\
  (2 * Z.abs (c - q * 10 ^ k) = 10 ^ k -> Z.even q = true).

(** [d] is the exact result [(-1)^s * c * 10^e] as the default context
    delivers it: unchanged when [c] has at most [prec] digits; otherwise, for
    [c] of [prec + k] digits, the last [k] digits are rounded off half to
    even, and a coefficient that rounding carries to [10^prec] is written
    [10^(prec-1)] with the exponent one higher. *)
Definition rounds_to_context (s : bool) (c e : Z) (d : Decimal) : Prop :=
  (c < 10 ^ prec /\ d = make s c e) \/
  (exists k q,
     1 <= k /\ 10 ^ (prec - 1 + k) <= c < 10 ^ (prec + k) /\
     nearest_even c k q /\
     d = if q =? 10 ^ prec then make s (10 ^ (prec - 1)) (e + k + 1)
         else make s q (e + k)).

(** [c] has at most [prec] significant digits: trailing zeros do not count. *)
Definition significant_within (c : Z) : Prop :=
  exists c0 j, 0 <= j /\ 0 <= c0 < 10 ^ prec /\ c = c0 * 10 ^ j.

(** [rounded_to], with ties going to the even coefficient. *)
Definition rounded_half_even_to (n : Z) (d r : Decimal) : Prop :=
  rounded_to n d r /\
  (dexp d < - n -> nearest_even (coefZ d) (- n - dexp d) (coefZ r)).

(** What a [DecimalField(max_digits, decimal_places)] can hold. *)
Definition fits_field (max_digits decimal_places : Z) (d : Decimal) : Prop :=
  - decimal_places <= dexp d <= 0 /\
  coefZ d < 10 ^ (max_digits - decimal_places - dexp d).

End decimal.

Abbreviation Decimal := decimal.Decimal.

(** ** Formatting integers: [str(n)] and [f"{n:,}"] *)

Definition comma : ascii := ","%char.

(** After each character, a comma when a positive multiple of three
    characters follows. *)
Fixpoint insert_commas (l : list ascii) : list ascii :=
  match l with
  | [] => []
  | c :: tl =>
      if (0 <? List.length tl)%nat && (List.length tl mod 3 =? 0)%nat
      then c :: comma :: insert_commas tl
      else c :: insert_commas tl
  end.

(** The decimal digits of a non-negative integer. *)
Definition digits_of (n : Z) : string :=
  NilZero.string_of_uint (N.to_uint (Z.to_N n)).

(** [str(z)] *)
Definition int_str (z : Z) : string :=
  if z <? 0 then String "-" (digits_of (Z.abs z)) else digits_of z.

(** [f"{z:,}"] *)
Definition format_comma (z : Z) : string :=
  let body :=
    string_of_list_ascii (insert_commas (list_ascii_of_string (digits_of (Z.abs z)))) in
  if z <? 0 then String "-" body else body.

(** The text with its commas taken out. *)
Definition strip_commas (l : list ascii) : list ascii :=
  List.filter (fun c => negb (Ascii.eqb c comma)) l.

(** Groups of exactly three characters, each led by a comma. *)
Inductive comma_groups : list ascii -> Prop :=
| groups_nil : comma_groups []
| groups_cons a b c rest :
    comma_groups rest -> comma_groups (comma :: a :: b :: c :: rest).

(** [s.lower()] on ASCII text (the model's strings are byte strings; the
    Unicode case mapping of non-ASCII characters is not modelled). *)
Definition ascii_lower (c : ascii) : ascii :=
  let n := nat_of_ascii c in
  if (65 <=? n)%nat && (n <=? 90)%nat then ascii_of_nat (n + 32) else c.

Fixpoint lower (s : string) : string :=
  match s with
  | EmptyString => EmptyString
  | String c tl => String (ascii_lower c) (lower tl)
  end.

(** [sep.join(parts)] on strings. *)
Fixpoint join (sep : string) (parts : list string) : string :=
  match parts with
  | [] => EmptyString
  | [p] => p
  | p :: tl => String.append p (String.append sep (join sep tl))
  end.

(** [s.replace(",", "")] *)
Definition remove_commas (s : string) : string :=
  string_of_list_ascii (strip_commas (list_ascii_of_string s)).

(** Reading a numeral back, as [int(s)] reads an optional minus sign followed
    by decimal digits. *)
Definition read_int (s : string) : option Z :=
  match s with
  | EmptyString => None
  | String c rest =>
      if Ascii.eqb c "-"
      then option_map (fun d => - Z.of_N (N.of_uint d)) (NilZero.uint_of_string rest)
      else option_map (fun d => Z.of_N (N.of_uint d)) (NilZero.uint_of_string s)
  end.

(** The ASCII capital letters. *)
Definition is_ascii_upper (c : ascii) : bool :=
  (65 <=? nat_of_ascii c)%nat && (nat_of_ascii c <=? 90)%nat.

(** [str(pk)] for a primary key: an integer, or [None] before the first
    save. *)
Definition str_pk (pk : option Z) : string :=
  match pk with
  | Some z => int_str z
  | None => "None"
  end.

(** ** Python floats

    IEEE doubles are kept abstract: the models only move them around.  The
    operations are the ones the source applies to floats; each is named after
    the Python expression it stands for. *)
Class FloatOps : Type := {
  float : Type;
  (** [x == 0.0], the falsy floats *)
  float_is_zero : float -> bool;
  (** [float(z)] for an int in range *)
  float_of_int : Z -> float;
  (** [a / b] on ints, the correctly rounded quotient, for [b <> 0] in range *)
  float_div_int : Z -> Z -> float;
  (** [x * y] *)
  float_mul : float -> float -> float;
  (** [round(x, n)] *)
  float_round : float -> Z -> float;
  (** [float(d)] for a Decimal *)
  float_of_decimal : Decimal -> float;
  (** [int(x)]: [None] for the infinities and NaN *)
  float_to_int : float -> option Z;
  float_is_nan : float -> bool;
  (** [str(x)] *)
  float_repr : float -> string;
  (** [f"{x:,}"] *)
  float_format_comma : float -> string
}.

(** Integers at or above this bound round to a double beyond the largest
    finite one. *)
Definition float_overflow_bound : Z := 2 ^ 1024 - 2 ^ 970.

(** ** The data model *)

Definition ExchangeNameChoices_WALLEX : string := "wallex".
Definition ExchangeNameChoices_BITPIN : string := "bitpin".
Definition MarketChoices_TOMAN : string := "irt".
Definition MarketChoices_TETHER : string := "usdt".
Definition TransactionTypeChoices_BUY : string := "buy".
Definition TransactionTypeChoices_SELL : string := "sell".

Definition TransactionTypeChoices_choices : list string :=
  [TransactionTypeChoices_BUY; TransactionTypeChoices_SELL].

Record Exchange : Type := {
  exchange_pk : option Z;
  name : string
}.

Record Coin : Type := {
  coin_pk : option Z;
  title : option string;
  code : string;
  enable : bool;
  icon : option string;
  icon_png : option string;
  icon_background_color : option string;
  coin_market : option string
}.

(** A [jdatetime.datetime]; only its [str()] is used, see [jdatetime_str]. *)
Record jdatetime : Type := {
  jyear : Z; jmonth : Z; jday : Z;
  jhour : Z; jminute : Z; jsecond : Z; jmicrosecond : Z;
  jutcoffset : option Z
}.

Record Transaction : Type := {
  transaction_pk : option Z;
  type : string;
  jdate : option jdatetime;
  price : Decimal;
  quantity : Decimal;
  market : option string;
  coin : Coin;
  profile : Z;
  change : option Decimal;
  platform_id : option string
}.

Record Importer : Type := {
  importer_pk : option Z;
  file : string;
  importer_profile : Z;
  success_count : Z;
  fail_count : Z;
  errors : option string
}.

(** ** Values *)

(** What a platform's [get_price] hands back: a number or [None]. *)
Inductive Price {fl : FloatOps} : Type :=
| PNone
| PInt (z : Z)
| PDecimal (d : Decimal)
| PFloat (f : float).

(** What the display properties return. *)
Inductive Display {fl : FloatOps} : Type :=
| DStr (s : string)
| DInt (z : Z)
| DFloat (f : float).

(** ** The exchange integrations

    [platforms/wallex.py] and [platforms/bitpin.py] are outside the modelled
    file; they are an interface here. *)
Inductive Platform : Type := Wallex | Bitpin.

Inductive outcome (A : Type) : Type :=
| Returned (a : A)
| Raised (what : string).

Arguments Returned {A} a.
Arguments Raised {A} what.

Definition lift {A : Type} (o : outcome A) : result A :=
  match o with
  | Returned a => Ok a
  | Raised what => Raise (PlatformError what)
  end.

Class Platforms {fl : FloatOps} : Type := {
  cache_result : Type;
  platform_get_price : Platform -> Coin -> option string -> outcome Price;
  platform_cache_all_prices : Platform -> outcome cache_result;
  (** [str(jdate)] of the [jdatetime] package *)
  jdatetime_str : jdatetime -> string
}.

(** ** Builtins on values *)

Section builtins.
Context {fl : FloatOps}.

(** [bool(p)] *)
Definition truthy (p : Price) : bool :=
  match p with
  | PNone => false
  | PInt z => negb (z =? 0)
  | PDecimal d => negb (decimal.is_zero d)
  | PFloat f => negb (float_is_zero f)
  end.

(** [p or 0] *)
Definition or_zero (p : Price) : Price := if truthy p then p else PInt 0.

(** [p * q] for a Decimal [q] *)
Definition mul_decimal (p : Price) (q : Decimal) : result Decimal :=
  match p with
  | PInt z => Ok (decimal.mul (decimal.of_int z) q)
  | PDecimal d => Ok (decimal.mul d q)
  | PNone | PFloat _ => Raise TypeError
  end.

(** The Decimal an int or Decimal price multiplies as. *)
Definition as_decimal (p : Price) : option Decimal :=
  match p with
  | PInt z => Some (decimal.of_int z)
  | PDecimal d => Some d
  | PNone | PFloat _ => None
  end.

(** [int(p)] *)
Definition py_int (p : Price) : result Z :=
  match p with
  | PNone => Raise TypeError
  | PInt z => Ok z
  | PDecimal d => Ok (decimal.to_int d)
  | PFloat f =>
      match float_to_int f with
      | Some z => Ok z
      | None => Raise (if float_is_nan f then ValueError else OverflowError)
      end
  end.

(** [round(z, n)] on an int: the int itself for [n >= 0], else the
    nearest multiple of [10^-n], half to even. *)
Definition round_int (z n : Z) : Z :=
  if 0 <=? n then z
  else Z.sgn z * decimal.drop_digits (Z.abs z) (- n) * 10 ^ (- n).

(** [round(p, n)] *)
Definition py_round (p : Price) (n : Z) : result Price :=
  match p with
  | PNone => Raise TypeError
  | PInt z => Ok (PInt (round_int z n))
  | PDecimal d => let* r := decimal.round d n in Ok (PDecimal r)
  | PFloat f => Ok (PFloat (float_round f n))
  end.

(** [float(p)] *)
Definition py_float (p : Price) : result float :=
  match p with
  | PNone => Raise TypeError
  | PInt z =>
      if Z.abs z <? float_overflow_bound then Ok (float_of_int z)
      else Raise OverflowError
  | PDecimal d => Ok (float_of_decimal d)
  | PFloat f => Ok f
  end.

(** [a / b] on ints *)
Definition py_truediv (a b : Z) : result float :=
  if b =? 0 then Raise ZeroDivisionError
  else if float_overflow_bound * Z.abs b <=? Z.abs a then Raise OverflowError
  else Ok (float_div_int a b).

(** [sep.join(parts)] where a part may be [None]: only strings join. *)
Definition py_join (sep : string) (parts : list (option string)) : result string :=
  match mapM id parts with
  | Some strs => Ok (join sep strs)
  | None => Raise TypeError
  end.

(** [str(o)] for an optional [jdatetime] *)
Definition str_jdate {pl : Platforms} (o : option jdatetime) : string :=
  match o with
  | Some d => jdatetime_str d
  | None => "None"
  end.

(** [m == choice] for a nullable CharField *)
Definition field_eq (m : option string) (choice : string) : bool :=
  match m with
  | Some s => String.eqb s choice
  | None => false
  end.

End builtins.

(** ** [class Exchange] *)

Module Exchange.
Section methods.
Context {fl : FloatOps} {pl : Platforms}.

Definition get_platform (self : Exchange) : result Platform :=
  if String.eqb (name self) ExchangeNameChoices_WALLEX then Ok Wallex
  else if String.eqb (name self) ExchangeNameChoices_BITPIN then Ok Bitpin
  else Raise (Exception "Exchange name is not valid").

Definition price (self : Exchange) (coin : Coin) (market : option string)
  : result Price :=
  let* platform := get_platform self in
  lift (platform_get_price platform coin market).

Definition cache_all_prices (self : Exchange) : result cache_result :=
  let* platform := get_platform self in
  lift (platform_cache_all_prices platform).

(** [f"({self.pk} - {self.name})"] *)
Definition __str__ (self : Exchange) : string :=
  String "(" (String.append (str_pk (exchange_pk self))
    (String.append " - " (String.append (name self) ")"))).

End methods.
End Exchange.

(** ** [class Coin]

    [objects] is the [Exchange] table in the order of [Exchange.objects];
    [Exchange.objects.last()] is its last row, or [None]. *)

Module Coin.
Section methods.
Context {fl : FloatOps} {pl : Platforms}.
Variable objects : list Exchange.

Definition price (self : Coin) (market : option string) : result Price :=
  match last objects with
  | Some exchange => Exchange.price exchange self market
  | None => Raise AttributeError
  end.

Definition get_price (self : Coin) (market : option string) : result string :=
  let* p := price self market in
  let* f := py_float p in
  Ok (float_format_comma f).

(** [f"({self.pk} - {self.code})"] *)
Definition __str__ (self : Coin) : string :=
  String "(" (String.append (str_pk (coin_pk self))
    (String.append " - " (String.append (code self) ")"))).

End methods.
End Coin.

(** ** [class Transaction]

    The [cached_property] members are computed on first access and kept; with
    the exchange table and the platforms fixed they are functions of the
    record like the plain properties. *)

Module Transaction.
Section methods.
Context {fl : FloatOps} {pl : Platforms}.
Variable objects : list Exchange.

Definition total_price (self : Transaction) : Z :=
  decimal.to_int (decimal.mul (price self) (quantity self)).

Definition current_price (self : Transaction) : result Price :=
  let* p := Coin.price objects (coin self) (market self) in
  Ok (or_zero p).

Definition get_current_value (self : Transaction) : result Z :=
  let* cp := current_price self in
  let* v := mul_decimal cp (quantity self) in
  Ok (decimal.to_int v).

Definition get_price (self : Transaction) : result Display :=
  if field_eq (market self) MarketChoices_TOMAN
  then Ok (DStr (format_comma (decimal.to_int (price self))))
  else let* r := decimal.round (price self) 2 in
       Ok (DFloat (float_of_decimal r)).

Definition get_current_price (self : Transaction) : result Display :=
  if field_eq (market self) MarketChoices_TOMAN
  then let* cp := current_price self in
       let* n := py_int cp in
       Ok (DStr (format_comma n))
  else let* cp := current_price self in
       let* r := py_round cp 2 in
       let* f := py_float r in
       Ok (DFloat f).

Definition get_quantity (self : Transaction) : result Display :=
  let* r := decimal.round (quantity self) 6 in
  Ok (DFloat (float_of_decimal r)).

Definition get_profit_or_loss (self : Transaction) : result Display :=
  if String.eqb (type self) TransactionTypeChoices_SELL then Ok (DStr "-")
  else let* cv := get_current_value self in
       Ok (DStr (format_comma (cv - total_price self))).

Definition get_total_price (self : Transaction) : Display :=
  DStr (format_comma (total_price self)).

Definition get_current_value_admin (self : Transaction) : result Display :=
  let* cv := get_current_value self in
  Ok (DStr (format_comma cv)).

Definition platform_id_components (self : Transaction) : list (option string) :=
  [ Some (str_jdate (jdate self));
    Some (code (coin self));
    market self;
    Some (type self);
    Some (float_repr (float_of_decimal (quantity self)));
    Some (float_repr (float_of_decimal (price self))) ].

Definition construct_platform_id (self : Transaction) : result string :=
  let* s := py_join "|" (platform_id_components self) in
  Ok (lower s).

Definition is_buy_transaction (self : Transaction) : bool :=
  String.eqb (type self) TransactionTypeChoices_BUY.

Definition is_sell_transaction (self : Transaction) : bool :=
  String.eqb (type self) TransactionTypeChoices_SELL.

Definition is_toman_market (self : Transaction) : bool :=
  field_eq (market self) MarketChoices_TOMAN.

Definition is_usdt_market (self : Transaction) : bool :=
  field_eq (market self) MarketChoices_TETHER.

Definition get_change_percentage (self : Transaction) : result Display :=
  if String.eqb (type self) TransactionTypeChoices_SELL then Ok (DStr "-")
  else if total_price self =? 0 then Ok (DInt 0)
  else let* cv := get_current_value self in
       let* q := py_truediv (cv - total_price self) (total_price self) in
       Ok (DFloat (float_round (float_mul q (float_of_int 100)) 2)).

(** [f"({self.pk} - {self.type} - {self.coin})"], the coin through its own
    [__str__]. *)
Definition __str__ (self : Transaction) : string :=
  String "(" (String.append (str_pk (transaction_pk self))
    (String.append " - " (String.append (type self)
      (String.append " - " (String.append (Coin.__str__ (coin self)) ")"))))).

End methods.
End Transaction.

(** ** [django.db.transaction]

    Django's connection state as far as [atomic] and [on_commit] use it.
    Every open [atomic] block has an identifier (Django's savepoint ids; the
    outermost block, a real transaction, gets one here as well) and remembers
    the table at its entry.  A callback registered with [on_commit] carries
    the identifiers of the blocks open at that moment: rolling one of them
    back discards it, and the commit of the outermost block runs what is
    left. *)

Module transaction.

(** The identity of a Python object. *)
Definition ref : Type := nat.

(** The callbacks the program registers: the closure
    [lambda: tasks.process_importer.delay(self.pk)], which holds [self] and
    reads its [pk] when it runs. *)
Inductive Callback : Type :=
| process_importer_delay (self : ref).

Record World : Type := mkWorld {
  (** the Importer objects alive in the Python process *)
  heap : gmap ref Importer;
  (** the importer table as the connection sees it *)
  table : gmap Z Importer;
  (** open atomic blocks, innermost first: identifier, table at entry *)
  atomic_blocks : list (nat * gmap Z Importer);
  next_sid : nat;
  (** pending callbacks, oldest first *)
  run_on_commit : list (list nat * Callback);
  (** the [process_importer.delay(pk)] calls that reached the task queue *)
  queue : list (option Z)
}.

Definition in_atomic_block (w : World) : bool :=
  match atomic_blocks w with [] => false | _ => true end.

Definition set_store (h : gmap ref Importer) (t : gmap Z Importer) (w : World) : World :=
  mkWorld h t (atomic_blocks w) (next_sid w) (run_on_commit w) (queue w).

(** The argument a callback passes to [delay] when it runs: [self.pk] as
    it is then. *)
Definition delivered (h : gmap ref Importer) (cb : Callback) : option Z :=
  match cb with
  | process_importer_delay self => h !! self ≫= importer_pk
  end.

(** Running a callback: [tasks.process_importer.delay(self.pk)]. *)
Definition run (cb : Callback) (w : World) : World :=
  mkWorld (heap w) (table w) (atomic_blocks w) (next_sid w) (run_on_commit w)
          (queue w ++ [delivered (heap w) cb]).

(** [with transaction.atomic():], entering *)
Definition atomic_enter (w : World) : World :=
  mkWorld (heap w) (table w)
          ((next_sid w, table w) :: atomic_blocks w)
          (S (next_sid w)) (run_on_commit w) (queue w).

(** [transaction.on_commit(cb)]: outside any block the callback runs at
    once (autocommit). *)
Definition on_commit (cb : Callback) (w : World) : World :=
  match atomic_blocks w with
  | [] => run cb w
  | blocks =>
      mkWorld (heap w) (table w) blocks (next_sid w)
              (run_on_commit w ++ [(blocks.*1, cb)]) (queue w)
  end.

(** Leaving an atomic block without an exception: an inner block is
    released, the outermost one commits and runs the pending callbacks. *)
Definition atomic_exit (w : World) : World :=
  match atomic_blocks w with
  | [] => w
  | [_] =>
      foldl (fun w' cb => run cb w')
            (mkWorld (heap w) (table w) [] (next_sid w) [] (queue w))
            (run_on_commit w).*2
  | _ :: blocks =>
      mkWorld (heap w) (table w) blocks (next_sid w) (run_on_commit w) (queue w)
  end.

(** Leaving an atomic block with an exception: the table goes back to what
    it was at entry; rolling back the outermost block forgets every pending
    callback, rolling back an inner one those registered inside it. *)
Definition atomic_rollback (w : World) : World :=
  match atomic_blocks w with
  | [] => w
  | [(_, snapshot)] =>
      mkWorld (heap w) snapshot [] (next_sid w) [] (queue w)
  | (sid, snapshot) :: blocks =>
      mkWorld (heap w) snapshot blocks (next_sid w)
              (filter (fun h => sid ∉ h.1) (run_on_commit w)) (queue w)
  end.

(** Identifiers in use are below [next_sid], and callbacks are pending
    only inside a block. *)
Definition consistent (w : World) : Prop :=
  Forall (fun b => (b.1 < next_sid w)%nat) (atomic_blocks w) /\
  Forall (fun h => Forall (fun sid => (sid < next_sid w)%nat) h.1) (run_on_commit w) /\
  (atomic_blocks w = [] -> run_on_commit w = []).

End transaction.

(** ** [class Importer] *)

(** The [super().save] call: [BaseModel] ([reusable/models.py]) and
    Django's [Model.save] are outside the modelled file.  The call works on
    the object and on the table, and returns or raises. *)
Class BaseModel : Type := {
  Model_save :
    transaction.ref -> gmap transaction.ref Importer -> gmap Z Importer ->
    gmap transaction.ref Importer * gmap Z Importer * option exn
}.

Module Importer.
Section methods.
Context {bm : BaseModel}.
Import transaction.

Definition save (self : ref) (w : World) : World * result unit :=
  let w1 := atomic_enter w in
  let w2 := on_commit (process_importer_delay self) w1 in
  match Model_save self (heap w2) (table w2) with
  | (h, t, None) => (atomic_exit (set_store h t w2), Ok tt)
  | (h, t, Some e) => (atomic_rollback (set_store h t w2), Raise e)
  end.

(** [f"({self.pk} - {self.file})"]; a file field prints as its name. *)
Definition __str__ (self : Importer) : string :=
  String "(" (String.append (str_pk (importer_pk self))
    (String.append " - " (String.append (file self) ")"))).

End methods.
End Importer.

(** ** Instances for running the model on examples *)

(** Exact rationals in place of doubles, to have an instance to run the
    model on: no rounding error, no infinities, and a text of its own
    (numerator "/" denominator).  It is not IEEE arithmetic: where a double
    computation is inexact its results differ from Python's, and so do all
    its texts.  The theorems hold for every [FloatOps]; only concrete
    instances of them use this one. *)
Definition Q_round (x : Q) (n : Z) : Q :=
  let y := Qred (x * inject_Z (10 ^ n)) in
  let den := Zpos (Qden y) in
  Qred (inject_Z (decimal.round_half_even (Qnum y / den) (2 * (Qnum y mod den)) den)
        / inject_Z (10 ^ n)).

Definition Q_str (x : Q) : string :=
  String.append (int_str (Qnum x)) (String "/" (int_str (Zpos (Qden x)))).

Definition exact_floats : FloatOps := {|
  float := Q;
  float_is_zero x := (Qnum x =? 0);
  float_of_int z := inject_Z z;
  float_div_int a b := Qred (inject_Z a / inject_Z b);
  float_mul x y := Qred (x * y);
  float_round := Q_round;
  float_of_decimal d := Qred (inject_Z (decimal.numerator d) / inject_Z (decimal.denominator d));
  float_to_int x := Some (Z.quot (Qnum x) (Zpos (Qden x)));
  float_is_nan _ := false;
  float_repr := Q_str;
  float_format_comma x :=
    String.append (format_comma (Qnum x)) (String "/" (int_str (Zpos (Qden x))))
|}.

(** Platforms that answer every price request with a fixed quote. *)
Definition fixed_platforms {fl : FloatOps} (quote : Platform -> outcome Price) : Platforms := {|
  cache_result := unit;
  platform_get_price p _ _ := quote p;
  platform_cache_all_prices _ := Returned tt;
  jdatetime_str d :=
    join "-" [int_str (jyear d); int_str (jmonth d); int_str (jday d)]
|}.

(** Both platforms quote 65000. *)
Definition steady_platforms : @Platforms exact_floats :=
  @fixed_platforms exact_floats
    (fun _ => Returned (@PDecimal exact_floats (decimal.make false 65000 0))).

(** Both platforms quote the Decimal 2.675. *)
Definition fine_platforms : @Platforms exact_floats :=
  @fixed_platforms exact_floats
    (fun _ => Returned (@PDecimal exact_floats (decimal.make false 2675 (-3)))).

(** Both platforms have no price to give. *)
Definition silent_platforms : @Platforms exact_floats :=
  @fixed_platforms exact_floats (fun _ => Returned (@PNone exact_floats)).

(** Both platforms quote the float 0.5. *)
Definition float_platforms : @Platforms exact_floats :=
  @fixed_platforms exact_floats (fun _ => Returned (@PFloat exact_floats (1 # 2)%Q)).

(** Both platforms quote 1500, the price [bought] was bought at. *)
Definition flat_platforms : @Platforms exact_floats :=
  @fixed_platforms exact_floats
    (fun _ => Returned (@PDecimal exact_floats (decimal.make false 1500 0))).

(** A [save] that inserts under the next free key, or updates in place. *)
Definition inserting_save : BaseModel := {|
  Model_save self h t :=
    match h !! self with
    | Some obj =>
        let pk := default (1 + Z.of_nat (size t)) (importer_pk obj) in
        let obj' := {| importer_pk := Some pk; file := file obj;
                       importer_profile := importer_profile obj;
                       success_count := success_count obj;
                       fail_count := fail_count obj; errors := errors obj |} in
        (<[self := obj']> h, <[pk := obj']> t, None)
    | None => (h, t, Some AttributeError)
    end
|}.

(** A [save] the database refuses. *)
Definition failing_save : BaseModel := {|
  Model_save self h t := (h, t, Some (DatabaseError "IntegrityError"))
|}.

Definition wallex_exchange : Exchange := {| exchange_pk := Some 1; name := "wallex" |}.
Definition bitpin_exchange : Exchange := {| exchange_pk := Some 2; name := "bitpin" |}.
Definition other_exchange : Exchange := {| exchange_pk := Some 3; name := "nobitex" |}.

Definition btc : Coin := {|
  coin_pk := Some 1; title := Some "Bitcoin"; code := "BTC"; enable := true;
  icon := None; icon_png := None; icon_background_color := None;
  coin_market := Some "irt"
|}.

Definition sample_transaction (ty : string) (mkt : option string) (p q : Decimal)
  : Transaction := {|
  transaction_pk := Some 1; type := ty; jdate := None; price := p; quantity := q;
  market := mkt; coin := btc; profile := 1; change := None; platform_id := None
|}.

(** Two units at 1500 toman, bought and sold, and an empty purchase. *)
Definition bought : Transaction :=
  sample_transaction "buy" (Some "irt"%string) (decimal.make false 1500 0) (decimal.make false 2 0).
Definition sold : Transaction :=
  sample_transaction "sell" (Some "irt"%string) (decimal.make false 1500 0) (decimal.make false 2 0).
Definition bought_nothing : Transaction :=
  sample_transaction "buy" (Some "irt"%string) (decimal.make false 1500 0) (decimal.make false 0 0).
(** 2.675 tether for 1.2345675 units. *)
Definition bought_tether : Transaction :=
  sample_transaction "buy" (Some "usdt"%string)
    (decimal.make false 2675 (-3)) (decimal.make false 12345675 (-7)).
(** Half a unit at 1.5 tether: worth less than one. *)
Definition bought_crumb : Transaction :=
  sample_transaction "buy" (Some "usdt"%string)
    (decimal.make false 15 (-1)) (decimal.make false 5 (-1)).
(** A transaction whose market was left empty. *)
Definition no_market : Transaction :=
  sample_transaction "buy" None (decimal.make false 15 (-1)) (decimal.make false 2 0).

Definition new_importer : Importer := {|
  importer_pk := None; file := "importer/history.csv"; importer_profile := 1;
  success_count := 0; fail_count := 0; errors := None
|}.

(** Two amounts a [DecimalField(max_digits=20, decimal_places=10)] holds,
    99999.9999999999 and 100000.0000000001. *)
Definition just_below : Decimal := decimal.make false 999999999999999 (-10).
Definition just_above : Decimal := decimal.make false 1000000000000001 (-10).

Definition idle_world : transaction.World :=
  transaction.mkWorld {[ 0%nat := new_importer ]} ∅ [] 0 [] [].

(** The coin of [btc] entered a second time, in lower case. *)
Definition btc_lowercase : Coin := {|
  coin_pk := Some 2; title := Some "bitcoin"; code := "btc"; enable := true;
  icon := None; icon_png := None; icon_background_color := None;
  coin_market := Some "irt"
|}.

(** [bought], recorded against [btc_lowercase]. *)
Definition bought_lowercase : Transaction := {|
  transaction_pk := Some 2; type := "buy"; jdate := None;
  price := decimal.make false 1500 0; quantity := decimal.make false 2 0;
  market := Some "irt"%string; coin := btc_lowercase; profile := 1; change := None;
  platform_id := None
|}.

(** A [save] that accepts a record only while the table is empty. *)
Definition first_only_save : BaseModel := {|
  Model_save self h t :=
    if decide (size t = 0%nat) then @Model_save inserting_save self h t
    else (h, t, Some (DatabaseError "IntegrityError"))
|}.

(** Two unsaved importers, outside any block and inside one. *)
Definition idle_pair : transaction.World :=
  transaction.mkWorld {[ 0%nat := new_importer; 1%nat := new_importer ]} ∅ [] 0 [] [].

Definition busy_pair : transaction.World := transaction.atomic_enter idle_pair.

(** The same process inside an [atomic] block opened by the caller. *)
Definition busy_world : transaction.World := transaction.atomic_enter idle_world.

(** * Properties *)

(** ** Decimal arithmetic *)

Lemma coefZ_nonneg (d : Decimal) : 0 <= decimal.coefZ d.
Proof. unfold decimal.coefZ. lia. Qed.

Lemma coefZ_make (s : bool) (c e : Z) :
  0 <= c -> decimal.coefZ (decimal.make s c e) = c.
Proof. intros Hc. unfold decimal.coefZ, decimal.make. simpl. lia. Qed.

Lemma pow10_pos (k : Z) : 0 <= k -> 0 < 10 ^ k.
Proof. intros Hk. apply Z.pow_pos_nonneg; lia. Qed.

Lemma pow10_succ (k : Z) : 0 <= k -> 10 ^ (k + 1) = 10 * 10 ^ k.
Proof. intros Hk. rewrite Z.pow_add_r by lia. change (10 ^ 1) with 10. lia. Qed.

(** [int(d)] truncates the exact value of [d] toward zero. *)
Lemma to_int_truncates (d : Decimal) :
  decimal.to_int d = Z.quot (decimal.numerator d) (decimal.denominator d).
Proof.
  unfold decimal.to_int, decimal.numerator, decimal.denominator, decimal.signed_coef.
  pose proof (coefZ_nonneg d) as Hc.
  destruct (Z.leb_spec 0 (decimal.dexp d)) as [He | He].
  - rewrite (Z.max_r 0 (decimal.dexp d)) by lia.
    rewrite (Z.max_l 0 (- decimal.dexp d)) by lia.
    change (10 ^ 0) with 1. rewrite Z.quot_1_r.
    destruct (decimal.dsign d); lia.
  - rewrite (Z.max_l 0 (decimal.dexp d)) by lia.
    rewrite (Z.max_r 0 (- decimal.dexp d)) by lia.
    change (10 ^ 0) with 1. rewrite Z.mul_1_r.
    assert (Hp : 0 < 10 ^ (- decimal.dexp d)) by (apply pow10_pos; lia).
    destruct (decimal.dsign d).
    + rewrite Z.quot_opp_l by lia. rewrite Z.quot_div_nonneg by lia. reflexivity.
    + rewrite Z.quot_div_nonneg by lia. reflexivity.
Qed.

(** The context leaves a product of at most [prec] digits alone. *)
Lemma mul_exact_small (a b : Decimal) :
  decimal.coefZ a * decimal.coefZ b < 10 ^ decimal.prec ->
  decimal.mul a b = decimal.mul_exact a b.
Proof.
  intros Hlt. unfold decimal.mul, decimal.mul_exact, decimal.fix_prec.
  destruct (Z.ltb_spec (decimal.coefZ a * decimal.coefZ b) (10 ^ decimal.prec)); [reflexivity | lia].
Qed.

(** [digits_fuel] counts the decimal digits once the fuel covers them. *)
Lemma digits_fuel_bounds (fuel : nat) :
  forall n, 0 < n -> n < 2 ^ Z.of_nat fuel ->
    10 ^ (decimal.digits_fuel fuel n - 1) <= n < 10 ^ decimal.digits_fuel fuel n
    /\ 1 <= decimal.digits_fuel fuel n.
Proof.
  induction fuel as [| fuel IH]; intros n Hpos Hlt.
  - change (2 ^ Z.of_nat 0) with 1 in Hlt. lia.
  - cbn [decimal.digits_fuel].
    destruct (Z.leb_spec n 0) as [Hle | _]; [lia |].
    destruct (Z.lt_ge_cases n 10) as [Hsmall | Hbig].
    + assert (Hq : n / 10 = 0) by (apply Z.div_small; lia).
      rewrite Hq.
      assert (Hz : decimal.digits_fuel fuel 0 = 0) by (destruct fuel; reflexivity).
      rewrite Hz. change (10 ^ (1 + 0 - 1)) with 1. change (10 ^ (1 + 0)) with 10. lia.
    + assert (Hq : 0 < n / 10) by (apply Z.div_str_pos; lia).
      assert (Hq2 : n / 10 < 2 ^ Z.of_nat fuel).
      { rewrite Nat2Z.inj_succ, Z.pow_succ_r in Hlt by lia.
        apply Z.div_lt_upper_bound; lia. }
      destruct (IH (n / 10) Hq Hq2) as [[Hlo Hhi] Hone].
      set (k := decimal.digits_fuel fuel (n / 10)) in *.
      replace (1 + k - 1) with ((k - 1) + 1) by lia.
      replace (1 + k) with (k + 1) by lia.
      rewrite !pow10_succ by lia.
      pose proof (Z.div_mod n 10 ltac:(lia)) as Hdm.
      pose proof (Z.mod_pos_bound n 10 ltac:(lia)) as Hm.
      lia.
Qed.

Lemma digits_bounds (n : Z) :
  0 < n ->
  10 ^ (decimal.digits n - 1) <= n < 10 ^ decimal.digits n /\ 1 <= decimal.digits n.
Proof.
  intros Hpos. unfold decimal.digits. apply digits_fuel_bounds; [assumption |].
  rewrite Nat2Z.inj_succ, Z2Nat.id by apply Z.log2_nonneg.
  apply Z.log2_spec. assumption.
Qed.

(** Dropping [k] digits rounds to a nearest multiple of [10^k]. *)
Lemma drop_digits_nearest (c k : Z) :
  0 <= c -> 1 <= k ->
  let q := decimal.drop_digits c k in
  c / 10 ^ k <= q <= c / 10 ^ k + 1 /\
  2 * Z.abs (c - q * 10 ^ k) <= 10 ^ k.
Proof.
  intros Hc Hk q. subst q. unfold decimal.drop_digits, decimal.round_half_even.
  assert (Hp : 0 < 10 ^ (k - 1)) by (apply pow10_pos; lia).
  assert (Hpk : 10 ^ k = 10 * 10 ^ (k - 1)).
  { replace k with ((k - 1) + 1) at 1 by lia. apply pow10_succ. lia. }
  pose proof (Z.div_mod c (10 ^ k) ltac:(lia)) as Hdm.
  pose proof (Z.mod_pos_bound c (10 ^ k) ltac:(lia)) as Hm.
  set (P := 10 ^ k) in *. set (q0 := c / P) in *. set (r := c mod P) in *.
  set (h := 10 ^ (k - 1)) in *.
  destruct (Z.ltb_spec (5 * h) r) as [Hgt | Hle]; cbn [orb].
  - split; [lia |]. replace (c - (q0 + 1) * P) with (r - P) by lia. lia.
  - destruct (Z.eqb_spec r (5 * h)) as [Heq | Hne]; cbn [andb].
    + destruct (Z.odd q0).
      * split; [lia |]. replace (c - (q0 + 1) * P) with (r - P) by lia. lia.
      * split; [lia |]. replace (c - q0 * P) with r by lia. lia.
    + split; [lia |]. replace (c - q0 * P) with r by lia. lia.
Qed.

(** The context's rounding: at most [prec] digits, a nearest such value, and
    the identity on what already fits. *)
Lemma fix_prec_nearest (s : bool) (c e : Z) :
  0 <= c ->
  let d := decimal.fix_prec s c e in
  decimal.dsign d = s /\
  decimal.coefZ d < 10 ^ decimal.prec /\
  e <= decimal.dexp d /\
  2 * Z.abs (c - decimal.coefZ d * 10 ^ (decimal.dexp d - e)) <= 10 ^ (decimal.dexp d - e) /\
  (c < 10 ^ decimal.prec -> d = decimal.make s c e).
Proof.
  intros Hc d. subst d. unfold decimal.fix_prec.
  assert (H28 : 0 < 10 ^ decimal.prec) by (apply pow10_pos; unfold decimal.prec; lia).
  destruct (Z.ltb_spec c (10 ^ decimal.prec)) as [Hsmall | Hbig].
  - rewrite coefZ_make by lia. cbn [decimal.make decimal.dsign decimal.dexp].
    replace (e - e) with 0 by lia. change (10 ^ 0) with 1.
    repeat split; try lia.
  - destruct (digits_bounds c ltac:(lia)) as [[Hlo Hhi] Hone].
    set (n := decimal.digits c) in *.
    assert (Hn : decimal.prec < n).
    { destruct (Z.le_gt_cases n decimal.prec) as [Hle | Hgt]; [| exact Hgt].
      assert (10 ^ n <= 10 ^ decimal.prec) by (apply Z.pow_le_mono_r; lia). lia. }
    set (k := n - decimal.prec) in *.
    assert (Hk : 1 <= k) by (subst k; lia).
    destruct (drop_digits_nearest c k Hc Hk) as [[Hq1 Hq2] Herr].
    set (q := decimal.drop_digits c k) in *.
    assert (Hpk : 0 < 10 ^ k) by (apply pow10_pos; lia).
    assert (Hsplit : 10 ^ n = 10 ^ decimal.prec * 10 ^ k).
    { rewrite <- Z.pow_add_r by (unfold decimal.prec; lia). f_equal. subst k. lia. }
    assert (Hdiv : c / 10 ^ k < 10 ^ decimal.prec).
    { apply Z.div_lt_upper_bound; lia. }
    destruct (Z.eqb_spec q (10 ^ decimal.prec)) as [Hcarry | Hno].
    + assert (H27 : 0 < 10 ^ (decimal.prec - 1)) by (apply pow10_pos; unfold decimal.prec; lia).
      rewrite coefZ_make by lia. cbn [decimal.make decimal.dsign decimal.dexp].
      replace (e + k + 1 - e) with (k + 1) by lia.
      rewrite pow10_succ by lia.
      assert (Hval : 10 ^ (decimal.prec - 1) * (10 * 10 ^ k) = q * 10 ^ k).
      { rewrite Hcarry. replace decimal.prec with ((decimal.prec - 1) + 1) at 2 by lia.
        rewrite pow10_succ by (unfold decimal.prec; lia). lia. }
      rewrite Hval.
      assert (Hp27 : 10 ^ (decimal.prec - 1) < 10 ^ decimal.prec).
      { apply Z.pow_lt_mono_r; unfold decimal.prec; lia. }
      repeat split; try lia.
    + assert (Hq0 : 0 <= c / 10 ^ k) by (apply Z.div_pos; lia).
      rewrite coefZ_make by lia. cbn [decimal.make decimal.dsign decimal.dexp].
      replace (e + k - e) with k by lia.
      repeat split; try lia.
Qed.

(** Dropping digits rounds half to even. *)
Lemma drop_digits_half_even (c k : Z) :
  0 <= c -> 1 <= k -> decimal.nearest_even c k (decimal.drop_digits c k).
Proof.
  intros Hc Hk. unfold decimal.nearest_even, decimal.drop_digits, decimal.round_half_even.
  assert (Hp : 0 < 10 ^ (k - 1)) by (apply pow10_pos; lia).
  assert (Hpk : 10 ^ k = 10 * 10 ^ (k - 1)).
  { replace k with ((k - 1) + 1) at 1 by lia. apply pow10_succ. lia. }
  pose proof (Z.div_mod c (10 ^ k) ltac:(lia)) as Hdm.
  pose proof (Z.mod_pos_bound c (10 ^ k) ltac:(lia)) as Hm.
  set (P := 10 ^ k) in *. set (q0 := c / P) in *. set (r := c mod P) in *.
  set (h := 10 ^ (k - 1)) in *.
  destruct (Z.ltb_spec (5 * h) r) as [Hgt | Hle]; cbn [orb].
  - replace (c - (q0 + 1) * P) with (r - P) by lia. split; lia.
  - destruct (Z.eqb_spec r (5 * h)) as [Heq | Hne]; cbn [andb].
    + destruct (Z.odd q0) eqn:Hodd.
      * replace (c - (q0 + 1) * P) with (r - P) by lia. split; [lia |].
        intros _. rewrite Z.add_1_r, Z.even_succ. exact Hodd.
      * replace (c - q0 * P) with r by lia. split; [lia |].
        intros _. rewrite <- Z.negb_odd, Hodd. reflexivity.
    + replace (c - q0 * P) with r by lia. split; lia.
Qed.

(** The context's rounding is the one [rounds_to_context] describes. *)
Lemma fix_prec_rounds (s : bool) (c e : Z) :
  0 <= c -> decimal.rounds_to_context s c e (decimal.fix_prec s c e).
Proof.
  intros Hc. unfold decimal.rounds_to_context, decimal.fix_prec.
  assert (H28 : 0 < 10 ^ decimal.prec) by (apply pow10_pos; unfold decimal.prec; lia).
  destruct (Z.ltb_spec c (10 ^ decimal.prec)) as [Hsmall | Hbig]; [left; auto | right].
  destruct (digits_bounds c ltac:(lia)) as [[Hlo Hhi] Hone].
  set (n := decimal.digits c) in *.
  assert (Hn : decimal.prec < n).
  { destruct (Z.le_gt_cases n decimal.prec) as [Hle | Hgt]; [| exact Hgt].
    assert (10 ^ n <= 10 ^ decimal.prec) by (apply Z.pow_le_mono_r; lia). lia. }
  exists (n - decimal.prec), (decimal.drop_digits c (n - decimal.prec)).
  split; [lia |]. split.
  - replace (decimal.prec - 1 + (n - decimal.prec)) with (n - 1) by lia.
    replace (decimal.prec + (n - decimal.prec)) with n by lia. lia.
  - split; [apply drop_digits_half_even; lia | reflexivity].
Qed.

(** Only one multiple is nearest with the even rule. *)
Lemma nearest_even_unique (c k q q' : Z) :
  0 <= k -> decimal.nearest_even c k q -> decimal.nearest_even c k q' -> q = q'.
Proof.
  intros Hk [Hq Hqe] [Hq' Hqe'].
  assert (HP : 0 < 10 ^ k) by (apply pow10_pos; lia).
  set (P := 10 ^ k) in *.
  assert (Hstep : forall a b, a < b ->
            2 * Z.abs (c - a * P) <= P -> 2 * Z.abs (c - b * P) <= P ->
            (2 * Z.abs (c - a * P) = P -> Z.even a = true) ->
            (2 * Z.abs (c - b * P) = P -> Z.even b = true) -> False).
  { intros a b Hab Ha Hb Hae Hbe.
    assert (Hmul : a * P + P <= b * P) by nia.
    assert (Hta : 2 * Z.abs (c - a * P) = P) by lia.
    assert (Htb : 2 * Z.abs (c - b * P) = P) by lia.
    assert (Hb1 : b = a + 1) by nia.
    specialize (Hae Hta). specialize (Hbe Htb).
    apply Z.even_spec in Hae as [m Hm]. apply Z.even_spec in Hbe as [m' Hm']. lia. }
  destruct (Z.lt_trichotomy q q') as [Hlt | [Heq | Hgt]]; [| exact Heq |].
  - exfalso. apply (Hstep q q'); assumption.
  - exfalso. apply (Hstep q' q); assumption.
Qed.

(** [rounds_to_context] names one Decimal. *)
Lemma rounds_to_context_unique (s : bool) (c e : Z) (d d' : Decimal) :
  decimal.rounds_to_context s c e d -> decimal.rounds_to_context s c e d' -> d = d'.
Proof.
  assert (H28 : 0 < 10 ^ decimal.prec) by (apply pow10_pos; unfold decimal.prec; lia).
  assert (Hlow : forall k, 1 <= k -> 10 ^ decimal.prec <= 10 ^ (decimal.prec - 1 + k)).
  { intros k Hk. apply Z.pow_le_mono_r; unfold decimal.prec; lia. }
  intros [[Hsmall ->] | (k & q & Hk & Hc & Hq & ->)]
         [[Hsmall' ->] | (k' & q' & Hk' & Hc' & Hq' & ->)].
  - reflexivity.
  - specialize (Hlow k' Hk'). lia.
  - specialize (Hlow k Hk). lia.
  - assert (Hkk : k = k').
    { assert (H1 : 10 ^ (decimal.prec - 1 + k) < 10 ^ (decimal.prec + k')) by lia.
      assert (H2 : 10 ^ (decimal.prec - 1 + k') < 10 ^ (decimal.prec + k)) by lia.
      apply Z.pow_lt_mono_r_iff in H1; [| lia | unfold decimal.prec; lia].
      apply Z.pow_lt_mono_r_iff in H2; [| lia | unfold decimal.prec; lia].
      lia. }
    subst k'. rewrite (nearest_even_unique c k q q' ltac:(lia) Hq Hq'). reflexivity.
Qed.

(** Moving trailing zeros from the coefficient to the exponent keeps the
    integer part. *)
Lemma to_int_shift (s : bool) (q k e : Z) :
  0 <= q -> 0 <= k ->
  decimal.to_int (decimal.make s (q * 10 ^ k) e) = decimal.to_int (decimal.make s q (e + k)).
Proof.
  intros Hq Hk.
  assert (HP : 0 < 10 ^ k) by (apply pow10_pos; lia).
  unfold decimal.to_int. rewrite !coefZ_make by nia.
  cbn [decimal.make decimal.dexp decimal.dsign].
  assert (Hm : (if 0 <=? e then q * 10 ^ k * 10 ^ e else q * 10 ^ k / 10 ^ (- e))
               = (if 0 <=? e + k then q * 10 ^ (e + k) else q / 10 ^ (- (e + k)))).
  { destruct (Z.leb_spec 0 e) as [He | He].
    - destruct (Z.leb_spec 0 (e + k)); [| lia].
      rewrite (Z.pow_add_r 10 e k) by lia. ring.
    - destruct (Z.leb_spec 0 (e + k)) as [Hek | Hek].
      + replace k with ((e + k) + (- e)) at 1 by lia.
        rewrite (Z.pow_add_r 10 (e + k) (- e)) by lia.
        assert (0 < 10 ^ (- e)) by (apply pow10_pos; lia).
        rewrite Z.mul_assoc, Z.div_mul by lia. reflexivity.
      + replace (- e) with ((- (e + k)) + k) by lia.
        rewrite (Z.pow_add_r 10 (- (e + k)) k) by lia.
        assert (0 < 10 ^ (- (e + k))) by (apply pow10_pos; lia).
        rewrite Z.div_mul_cancel_r by lia. reflexivity. }
  rewrite Hm. reflexivity.
Qed.

(** The context changes nothing of the value when the exact product has at
    most [prec] significant digits. *)
Lemma mul_exact_significant (a b : Decimal) :
  decimal.significant_within (decimal.coefZ a * decimal.coefZ b) ->
  decimal.to_int (decimal.mul a b) = decimal.to_int (decimal.mul_exact a b).
Proof.
  intros (c0 & j & Hj & Hc0 & Hc).
  assert (H28 : 0 < 10 ^ decimal.prec) by (apply pow10_pos; unfold decimal.prec; lia).
  destruct (Z.lt_ge_cases (decimal.coefZ a * decimal.coefZ b) (10 ^ decimal.prec))
    as [Hsmall | Hbig]; [rewrite mul_exact_small by exact Hsmall; reflexivity |].
  unfold decimal.mul, decimal.mul_exact, decimal.fix_prec.
  set (c := decimal.coefZ a * decimal.coefZ b) in *.
  set (e := decimal.dexp a + decimal.dexp b).
  set (s := xorb (decimal.dsign a) (decimal.dsign b)).
  destruct (Z.ltb_spec c (10 ^ decimal.prec)) as [| _]; [lia |].
  destruct (digits_bounds c ltac:(lia)) as [[Hlo Hhi] Hone].
  set (n := decimal.digits c) in *.
  assert (Hn : decimal.prec < n).
  { destruct (Z.le_gt_cases n decimal.prec) as [Hle | Hgt]; [| exact Hgt].
    assert (10 ^ n <= 10 ^ decimal.prec) by (apply Z.pow_le_mono_r; lia). lia. }
  set (k := n - decimal.prec) in *.
  assert (Hk : 1 <= k) by (subst k; lia).
  assert (HPj : 0 < 10 ^ j) by (apply pow10_pos; lia).
  assert (Hjk : k <= j).
  { destruct (Z.le_gt_cases k j) as [Hok | Hlt]; [exact Hok | exfalso].
    assert (Hmono : 10 ^ (decimal.prec + j) <= 10 ^ (n - 1)).
    { apply Z.pow_le_mono_r; [lia | subst k; lia]. }
    rewrite Z.pow_add_r in Hmono by (unfold decimal.prec; lia). nia. }
  assert (HPk : 0 < 10 ^ k) by (apply pow10_pos; lia).
  assert (HPjk : 0 < 10 ^ (j - k)) by (apply pow10_pos; lia).
  assert (Hsplit : c = c0 * 10 ^ (j - k) * 10 ^ k).
  { rewrite Hc, <- Z.mul_assoc, <- Z.pow_add_r by lia. do 2 f_equal. lia. }
  set (q := c0 * 10 ^ (j - k)) in *.
  assert (Hq0 : 0 <= q) by (subst q; nia).
  assert (Hdrop : decimal.drop_digits c k = q).
  { unfold decimal.drop_digits, decimal.round_half_even.
    rewrite Hsplit, Z.div_mul, Z.mod_mul by lia.
    assert (Hh : 0 < 5 * 10 ^ (k - 1)).
    { assert (0 < 10 ^ (k - 1)) by (apply pow10_pos; lia). lia. }
    destruct (Z.ltb_spec (5 * 10 ^ (k - 1)) 0); [lia |].
    destruct (Z.eqb_spec 0 (5 * 10 ^ (k - 1))); [lia | reflexivity]. }
  rewrite Hdrop.
  assert (Hq28 : q < 10 ^ decimal.prec).
  { assert (Hnk : 10 ^ n = 10 ^ decimal.prec * 10 ^ k).
    { rewrite <- Z.pow_add_r by (unfold decimal.prec; lia). f_equal. subst k. lia. }
    nia. }
  destruct (Z.eqb_spec q (10 ^ decimal.prec)); [lia |].
  rewrite Hsplit. symmetry. apply to_int_shift; lia.
Qed.

(** [round(d, n)], when it returns, has exponent [-n], the sign of [d], and
    a coefficient that is exact when [d] has at most [n] decimals and a
    nearest one otherwise. *)
Lemma round_nearest (d r : Decimal) (n : Z) :
  decimal.round d n = Ok r ->
  decimal.dexp r = - n /\ decimal.dsign r = decimal.dsign d /\
  decimal.coefZ r < 10 ^ decimal.prec /\
  (- n <= decimal.dexp d ->
     decimal.coefZ r = decimal.coefZ d * 10 ^ (decimal.dexp d + n)) /\
  (decimal.dexp d < - n ->
     2 * Z.abs (decimal.coefZ d - decimal.coefZ r * 10 ^ (- n - decimal.dexp d))
       <= 10 ^ (- n - decimal.dexp d)).
Proof.
  unfold decimal.round. intros Hr.
  pose proof (coefZ_nonneg d) as Hc.
  destruct (Z.leb_spec (- n) (decimal.dexp d)) as [Hexact | Hdrop].
  - destruct (Z.leb_spec (10 ^ decimal.prec)
                (decimal.coefZ d * 10 ^ (decimal.dexp d + n))) as [| Hlt];
      [discriminate |].
    injection Hr as <-. cbn [decimal.make decimal.dsign decimal.dexp].
    assert (0 < 10 ^ (decimal.dexp d + n)) by (apply pow10_pos; lia).
    rewrite coefZ_make by nia.
    repeat split; try lia.
  - destruct (drop_digits_nearest (decimal.coefZ d) (- n - decimal.dexp d) Hc ltac:(lia))
      as [[Hq1 Hq2] Herr].
    assert (0 < 10 ^ (- n - decimal.dexp d)) by (apply pow10_pos; lia).
    assert (0 <= decimal.coefZ d / 10 ^ (- n - decimal.dexp d)) by (apply Z.div_pos; lia).
    destruct (Z.leb_spec (10 ^ decimal.prec)
                (decimal.drop_digits (decimal.coefZ d) (- n - decimal.dexp d))) as [| Hlt];
      [discriminate |].
    injection Hr as <-. cbn [decimal.make decimal.dsign decimal.dexp].
    rewrite coefZ_make by lia.
    repeat split; try lia.
Qed.

(** Rounding a Decimal to [n] places rounds half to even. *)
Lemma round_half_even_to (d r : Decimal) (n : Z) :
  decimal.round d n = Ok r -> decimal.rounded_half_even_to n d r.
Proof.
  intros Hr. split.
  - destruct (round_nearest d r n Hr) as (He & Hs & _ & Hexact & Hnear).
    repeat split; assumption.
  - intros Hdrop. unfold decimal.round in Hr.
    destruct (Z.leb_spec (- n) (decimal.dexp d)); [lia |].
    pose proof (coefZ_nonneg d) as Hc.
    pose proof (drop_digits_half_even (decimal.coefZ d) (- n - decimal.dexp d) Hc ltac:(lia))
      as Hne.
    destruct (drop_digits_nearest (decimal.coefZ d) (- n - decimal.dexp d) Hc ltac:(lia))
      as [[Hq1 _] _].
    assert (0 <= decimal.coefZ d / 10 ^ (- n - decimal.dexp d)).
    { apply Z.div_pos; [lia | apply pow10_pos; lia]. }
    destruct (10 ^ decimal.prec <=? decimal.drop_digits (decimal.coefZ d) (- n - decimal.dexp d));
      [discriminate |].
    injection Hr as <-. rewrite coefZ_make by lia. exact Hne.
Qed.

(** [round(d, n)] returns every Decimal that is [d] rounded half to even to
    [n] places and fits the precision. *)
Lemma round_complete (d r : Decimal) (n : Z) :
  decimal.rounded_half_even_to n d r ->
  decimal.coefZ r < 10 ^ decimal.prec ->
  decimal.round d n = Ok r.
Proof.
  intros [(He & Hs & Hexact & _) Htie] Hfit.
  pose proof (coefZ_nonneg d) as Hc.
  assert (Hmake : forall c, c = decimal.coefZ r -> decimal.make (decimal.dsign d) c (- n) = r).
  { intros c ->. destruct r as [rs rc re]. cbn in *. subst.
    unfold decimal.make, decimal.coefZ. cbn. rewrite N2Z.id. reflexivity. }
  unfold decimal.round.
  destruct (Z.leb_spec (- n) (decimal.dexp d)) as [Hpad | Hdrop].
  - rewrite <- (Hexact Hpad).
    destruct (Z.leb_spec (10 ^ decimal.prec) (decimal.coefZ r)); [lia |].
    rewrite (Hmake _ eq_refl). reflexivity.
  - specialize (Htie Hdrop).
    pose proof (drop_digits_half_even (decimal.coefZ d) (- n - decimal.dexp d) Hc ltac:(lia))
      as Hmine.
    assert (Hk : 0 <= - n - decimal.dexp d) by lia.
    rewrite (nearest_even_unique _ _ _ _ Hk Hmine Htie).
    destruct (Z.leb_spec (10 ^ decimal.prec) (decimal.coefZ r)); [lia |].
    rewrite (Hmake _ eq_refl). reflexivity.
Qed.

(** Rounding a value that fits a [DecimalField] never raises, as long as the
    whole digits and the kept decimals stay within the precision. *)
Lemma round_fits_field (d : Decimal) (max_digits decimal_places n : Z) :
  decimal.fits_field max_digits decimal_places d ->
  0 <= decimal_places <= max_digits ->
  0 <= n ->
  max_digits - decimal_places + n < decimal.prec ->
  exists r, decimal.round d n = Ok r.
Proof.
  intros [[Hlo Hhi] Hcoef] Hdp Hn Hprec.
  pose proof (coefZ_nonneg d) as Hc.
  set (W := max_digits - decimal_places) in *.
  assert (HW : 0 <= W) by (unfold W; lia).
  assert (Hbound : 10 ^ (W + n) < 10 ^ decimal.prec).
  { apply Z.pow_lt_mono_r; lia. }
  unfold decimal.round.
  destruct (Z.leb_spec (- n) (decimal.dexp d)) as [Hexact | Hdrop].
  - assert (Hp : 0 < 10 ^ (decimal.dexp d + n)) by (apply pow10_pos; lia).
    assert (Hlt : decimal.coefZ d * 10 ^ (decimal.dexp d + n) < 10 ^ (W + n)).
    { replace (W + n) with ((W - decimal.dexp d) + (decimal.dexp d + n)) by lia.
      rewrite (Z.pow_add_r 10 (W - decimal.dexp d) (decimal.dexp d + n)) by lia.
      apply Z.mul_lt_mono_pos_r; assumption. }
    destruct (Z.leb_spec (10 ^ decimal.prec)
                (decimal.coefZ d * 10 ^ (decimal.dexp d + n))); [lia | eauto].
  - set (k := - n - decimal.dexp d) in *.
    destruct (drop_digits_nearest (decimal.coefZ d) k Hc ltac:(lia)) as [[Hq1 Hq2] _].
    assert (Hp : 0 < 10 ^ k) by (apply pow10_pos; lia).
    assert (Hlt : decimal.coefZ d / 10 ^ k < 10 ^ (W + n)).
    { apply Z.div_lt_upper_bound; [lia |].
      rewrite <- Z.pow_add_r by lia.
      replace (k + (W + n)) with (W - decimal.dexp d) by lia. exact Hcoef. }
    destruct (Z.leb_spec (10 ^ decimal.prec) (decimal.drop_digits (decimal.coefZ d) k));
      [lia | eauto].
Qed.

(** ** Thousands separators *)

Lemma insert_commas_strip (l : list ascii) :
  Forall (fun c => c <> comma) l -> strip_commas (insert_commas l) = l.
Proof.
  induction 1 as [| c tl Hc Htl IH]; [reflexivity |].
  cbn [insert_commas].
  assert (Hkeep : negb (Ascii.eqb c comma) = true).
  { destruct (Ascii.eqb_spec c comma); [contradiction | reflexivity]. }
  destruct ((0 <? List.length tl)%nat && (List.length tl mod 3 =? 0)%nat);
    unfold strip_commas in *; cbn [List.filter]; rewrite Hkeep; cbn; rewrite IH; reflexivity.
Qed.

(** The shape of [insert_commas]: a leading group of one to three
    characters, then groups of three, each after a comma. *)
Lemma insert_commas_groups (l : list ascii) :
  l <> [] ->
  exists head tail,
    insert_commas l = head ++ tail /\
    List.length head = S ((List.length l - 1) mod 3) /\
    comma_groups tail.
Proof.
  induction l as [| c tl IH]; [congruence |]. intros _.
  cbn [insert_commas].
  destruct tl as [| c' tl'].
  - exists [c], []. cbn. repeat split; constructor.
  - destruct IH as (head & tail & Heq & Hlen & Hgroups); [congruence |].
    set (tl := c' :: tl') in *. rewrite Heq.
    assert (Hpos : (0 <? List.length tl)%nat = true) by (apply Nat.ltb_lt; cbn; lia).
    rewrite Hpos. cbn [andb].
    assert (Hl : (List.length (c :: tl) - 1 = List.length tl)%nat) by (cbn; lia).
    rewrite Hl.
    assert (Hn : (1 <= List.length tl)%nat) by (cbn; lia).
    destruct (Nat.eqb_spec (List.length tl mod 3) 0) as [Hz | Hnz].
    + assert (Hthree : List.length head = 3%nat).
      { rewrite Hlen.
        pose proof (Nat.div_mod_eq (List.length tl) 3).
        pose proof (Nat.div_mod_eq (List.length tl - 1) 3).
        pose proof (Nat.mod_upper_bound (List.length tl - 1) 3 ltac:(lia)). lia. }
      destruct head as [| x [| y [| z [| ? ?]]]]; try discriminate.
      exists [c], (comma :: x :: y :: z :: tail).
      split; [reflexivity |]. split; [rewrite Hz; reflexivity |].
      constructor. exact Hgroups.
    + exists (c :: head), tail. cbn [app List.length]. rewrite Hlen.
      repeat split; [| exact Hgroups]. f_equal.
      pose proof (Nat.div_mod_eq (List.length tl) 3).
      pose proof (Nat.div_mod_eq (List.length tl - 1) 3).
      pose proof (Nat.mod_upper_bound (List.length tl - 1) 3 ltac:(lia)).
      pose proof (Nat.mod_upper_bound (List.length tl) 3 ltac:(lia)). lia.
Qed.

Lemma string_of_uint_digits (d : Decimal.uint) :
  Forall (fun c => c <> comma) (list_ascii_of_string (NilEmpty.string_of_uint d)).
Proof.
  induction d; cbn [NilEmpty.string_of_uint list_ascii_of_string];
    constructor; (discriminate || assumption).
Qed.

Lemma digits_of_no_comma (n : Z) :
  Forall (fun c => c <> comma) (list_ascii_of_string (digits_of n)).
Proof.
  unfold digits_of, NilZero.string_of_uint.
  destruct (N.to_uint (Z.to_N n)) eqn:Hd; try (rewrite <- Hd; apply string_of_uint_digits).
  cbn. repeat constructor. discriminate.
Qed.

Lemma to_uint_not_nil (n : N) : N.to_uint n <> Decimal.Nil.
Proof.
  intros Hnil. pose proof (DecimalN.Unsigned.of_to n) as Hof.
  rewrite Hnil in Hof. cbn in Hof. subst n. discriminate.
Qed.

Lemma digits_of_nonempty (n : Z) : list_ascii_of_string (digits_of n) <> [].
Proof.
  unfold digits_of, NilZero.string_of_uint.
  pose proof (to_uint_not_nil (Z.to_N n)) as Hnn.
  destruct (N.to_uint (Z.to_N n)); cbn; congruence.
Qed.

(** Reading the digits back gives the number. *)
Lemma digits_of_roundtrip (n : Z) :
  0 <= n ->
  option_map (fun d => Z.of_N (N.of_uint d)) (NilZero.uint_of_string (digits_of n)) = Some n.
Proof.
  intros Hn. unfold digits_of.
  rewrite NilZero.usu by apply to_uint_not_nil. cbn [option_map].
  rewrite DecimalN.Unsigned.of_to. f_equal. lia.
Qed.

(** [f"{z:,}"]: an optional minus sign, one to three digits, then groups of
    a comma and three digits; without the commas, the digits of [|z|]. *)
Lemma format_comma_thousands (z : Z) :
  exists head tail,
    list_ascii_of_string (format_comma z)
      = (if z <? 0 then ["-"%char] else []) ++ head ++ tail /\
    (1 <= List.length head <= 3)%nat /\
    comma_groups tail /\
    strip_commas (head ++ tail) = list_ascii_of_string (digits_of (Z.abs z)).
Proof.
  destruct (insert_commas_groups _ (digits_of_nonempty (Z.abs z)))
    as (head & tail & Heq & Hlen & Hgroups).
  exists head, tail. split; [| split; [| split]].
  - unfold format_comma. rewrite Heq.
    destruct (z <? 0); cbn [list_ascii_of_string app];
      rewrite list_ascii_of_string_of_list_ascii; reflexivity.
  - rewrite Hlen.
    pose proof (Nat.mod_upper_bound
                  (List.length (list_ascii_of_string (digits_of (Z.abs z))) - 1) 3
                  ltac:(lia)). lia.
  - exact Hgroups.
  - rewrite <- Heq. apply insert_commas_strip, digits_of_no_comma.
Qed.

Section properties.
Context {fl : FloatOps} {pl : Platforms}.
Variable objects : list Exchange.

(** ** Exchange *)

Lemma get_platform_wallex (e : Exchange) :
  name e = "wallex"%string -> Exchange.get_platform e = Ok Wallex.
Proof. intros Hn. unfold Exchange.get_platform. rewrite Hn. reflexivity. Qed.

Lemma get_platform_bitpin (e : Exchange) :
  name e = "bitpin"%string -> Exchange.get_platform e = Ok Bitpin.
Proof. intros Hn. unfold Exchange.get_platform. rewrite Hn. reflexivity. Qed.

Lemma get_platform_other (e : Exchange) :
  name e <> "wallex"%string -> name e <> "bitpin"%string ->
  Exchange.get_platform e = Raise (Exception "Exchange name is not valid").
Proof.
  intros Hw Hb. unfold Exchange.get_platform.
  destruct (String.eqb_spec (name e) ExchangeNameChoices_WALLEX); [contradiction |].
  destruct (String.eqb_spec (name e) ExchangeNameChoices_BITPIN); [contradiction |].
  reflexivity.
Qed.

(** C1: [get_platform] answers Wallex for "wallex", Bitpin for "bitpin" and
    raises for every other name; [price] and [cache_all_prices] hand the
    call to the platform so selected, and raise the same exception when
    there is none. *)
Theorem get_platform_dispatch (e : Exchange) (c : Coin) (m : option string) :
  (name e = "wallex"%string ->
     Exchange.get_platform e = Ok Wallex /\
     Exchange.price e c m = lift (platform_get_price Wallex c m) /\
     Exchange.cache_all_prices e = lift (platform_cache_all_prices Wallex)) /\
  (name e = "bitpin"%string ->
     Exchange.get_platform e = Ok Bitpin /\
     Exchange.price e c m = lift (platform_get_price Bitpin c m) /\
     Exchange.cache_all_prices e = lift (platform_cache_all_prices Bitpin)) /\
  (name e <> "wallex"%string -> name e <> "bitpin"%string ->
     Exchange.get_platform e = Raise (Exception "Exchange name is not valid") /\
     Exchange.price e c m = Raise (Exception "Exchange name is not valid") /\
     Exchange.cache_all_prices e = Raise (Exception "Exchange name is not valid")).
Proof.
  unfold Exchange.price, Exchange.cache_all_prices.
  split; [| split].
  - intros Hn. rewrite (get_platform_wallex e Hn). auto.
  - intros Hn. rewrite (get_platform_bitpin e Hn). auto.
  - intros Hw Hb. rewrite (get_platform_other e Hw Hb). auto.
Qed.

(** ** Coin *)

Lemma last_exchange_member (e : Exchange) : last objects = Some e -> e ∈ objects.
Proof.
  intros Hl. rewrite last_lookup in Hl. eapply list_elem_of_lookup_2. exact Hl.
Qed.

Lemma get_platform_valid_name (e : Exchange) (p : Platform) :
  Exchange.get_platform e = Ok p ->
  name e = "wallex"%string \/ name e = "bitpin"%string.
Proof.
  unfold Exchange.get_platform.
  destruct (String.eqb_spec (name e) ExchangeNameChoices_WALLEX); [auto |].
  destruct (String.eqb_spec (name e) ExchangeNameChoices_BITPIN); [auto |].
  discriminate.
Qed.

(** C10: [Coin.price] asks the last Exchange row; with no row the call
    fails, a returned price needs a last row with a valid name, and
    [Coin.get_price] is that price as a float, formatted. *)
Theorem coin_price_last_exchange (c : Coin) (m : option string) :
  (forall e, last objects = Some e ->
     Coin.price objects c m = Exchange.price e c m) /\
  (objects = [] ->
     Coin.price objects c m = Raise AttributeError /\
     Coin.get_price objects c m = Raise AttributeError) /\
  (forall p, Coin.price objects c m = Ok p ->
     exists e, last objects = Some e /\ e ∈ objects /\
               (name e = "wallex"%string \/ name e = "bitpin"%string)) /\
  (forall p f, Coin.price objects c m = Ok p -> py_float p = Ok f ->
     Coin.get_price objects c m = Ok (float_format_comma f)).
Proof.
  unfold Coin.get_price, Coin.price.
  split; [| split; [| split]].
  - intros e ->. reflexivity.
  - intros ->. split; reflexivity.
  - intros p Hp. destruct (last objects) as [e |] eqn:Hl; [| discriminate].
    exists e. split; [reflexivity |]. split; [apply last_exchange_member, Hl |].
    unfold Exchange.price in Hp.
    destruct (Exchange.get_platform e) as [platform |] eqn:Hpl; [| discriminate].
    eapply get_platform_valid_name, Hpl.
  - intros p f Hp Hf. rewrite Hp. cbn [bind]. rewrite Hf. reflexivity.
Qed.

(** ** Transaction: values *)

Lemma signed_coef_mul_exact (a b : Decimal) :
  decimal.signed_coef (decimal.mul_exact a b)
  = decimal.signed_coef a * decimal.signed_coef b.
Proof.
  pose proof (coefZ_nonneg a). pose proof (coefZ_nonneg b).
  unfold decimal.signed_coef, decimal.mul_exact.
  rewrite coefZ_make by nia. cbn [decimal.make decimal.dsign].
  destruct (decimal.dsign a), (decimal.dsign b); cbn [xorb]; lia.
Qed.

(** The exact product, truncated, is [int()] of the unrounded product. *)
Lemma exact_product_is_mul_exact (a b : Decimal) :
  decimal.exact_product_truncated a b = decimal.to_int (decimal.mul_exact a b).
Proof.
  rewrite to_int_truncates.
  unfold decimal.exact_product_truncated, decimal.numerator, decimal.denominator.
  rewrite signed_coef_mul_exact.
  change (decimal.dexp (decimal.mul_exact a b)) with (decimal.dexp a + decimal.dexp b).
  set (ea := decimal.dexp a). set (eb := decimal.dexp b).
  set (g := Z.max 0 ea + Z.max 0 eb - Z.max 0 (ea + eb)).
  assert (Hg : 0 <= g) by lia.
  assert (HN : 10 ^ Z.max 0 ea * 10 ^ Z.max 0 eb = 10 ^ Z.max 0 (ea + eb) * 10 ^ g).
  { rewrite <- !Z.pow_add_r by lia. f_equal. lia. }
  assert (HD : 10 ^ Z.max 0 (- ea) * 10 ^ Z.max 0 (- eb)
               = 10 ^ Z.max 0 (- (ea + eb)) * 10 ^ g).
  { rewrite <- !Z.pow_add_r by lia. f_equal. lia. }
  rewrite HD.
  replace (decimal.signed_coef a * 10 ^ Z.max 0 ea * (decimal.signed_coef b * 10 ^ Z.max 0 eb))
    with (decimal.signed_coef a * decimal.signed_coef b * 10 ^ Z.max 0 (ea + eb) * 10 ^ g)
    by (rewrite <- Z.mul_assoc, <- HN; ring).
  assert (0 < 10 ^ g) by (apply pow10_pos; lia).
  assert (0 < 10 ^ Z.max 0 (- (ea + eb))) by (apply pow10_pos; lia).
  apply Z.quot_mul_cancel_r; lia.
Qed.

Lemma to_int_zero (d : Decimal) : decimal.coefZ d = 0 -> decimal.to_int d = 0.
Proof.
  intros Hz. unfold decimal.to_int. rewrite Hz.
  rewrite Z.mul_0_l, Zdiv_0_l.
  destruct (0 <=? decimal.dexp d), (decimal.dsign d); reflexivity.
Qed.

Lemma mul_zero_int (q : Decimal) :
  decimal.to_int (decimal.mul (decimal.of_int 0) q) = 0.
Proof.
  apply to_int_zero. unfold decimal.mul, decimal.fix_prec.
  change (decimal.coefZ (decimal.of_int 0)) with 0. rewrite Z.mul_0_l.
  change (0 <? 10 ^ decimal.prec) with true. cbn match. reflexivity.
Qed.

(** C3 (as amended): [total_price] is [int()] of the Decimal product: the
    exact product as the default context delivers it, rounded half to even
    to 28 significant digits, then truncated toward zero.  The description
    fixes the value: any Decimal that fits it gives the same total price.  It
    is the truncated exact product whenever the exact product has at most 28
    significant digits.  [get_current_value] is the same for an int or
    Decimal current price. *)
Theorem total_price_rounded_product (t : Transaction) :
  let d := decimal.mul (price t) (quantity t) in
  let s := xorb (decimal.dsign (price t)) (decimal.dsign (quantity t)) in
  let c := decimal.coefZ (price t) * decimal.coefZ (quantity t) in
  let e := decimal.dexp (price t) + decimal.dexp (quantity t) in
  decimal.prec = 28 /\
  Transaction.total_price t = Z.quot (decimal.numerator d) (decimal.denominator d) /\
  decimal.rounds_to_context s c e d /\
  (forall d', decimal.rounds_to_context s c e d' ->
     Transaction.total_price t = Z.quot (decimal.numerator d') (decimal.denominator d')) /\
  (decimal.significant_within c ->
     Transaction.total_price t = decimal.exact_product_truncated (price t) (quantity t)) /\
  (forall cp dc, Transaction.current_price objects t = Ok cp -> as_decimal cp = Some dc ->
     let d2 := decimal.mul dc (quantity t) in
     let s2 := xorb (decimal.dsign dc) (decimal.dsign (quantity t)) in
     let c2 := decimal.coefZ dc * decimal.coefZ (quantity t) in
     let e2 := decimal.dexp dc + decimal.dexp (quantity t) in
     Transaction.get_current_value objects t
       = Ok (Z.quot (decimal.numerator d2) (decimal.denominator d2)) /\
     decimal.rounds_to_context s2 c2 e2 d2 /\
     (forall d', decimal.rounds_to_context s2 c2 e2 d' ->
        Transaction.get_current_value objects t
          = Ok (Z.quot (decimal.numerator d') (decimal.denominator d'))) /\
     (decimal.significant_within c2 ->
        Transaction.get_current_value objects t
          = Ok (decimal.exact_product_truncated dc (quantity t)))).
Proof.
  intros d s c e. subst d s c e.
  assert (Hrounds : forall a b,
            decimal.rounds_to_context (xorb (decimal.dsign a) (decimal.dsign b))
              (decimal.coefZ a * decimal.coefZ b) (decimal.dexp a + decimal.dexp b)
              (decimal.mul a b)).
  { intros a b. pose proof (coefZ_nonneg a). pose proof (coefZ_nonneg b).
    apply fix_prec_rounds. nia. }
  split; [reflexivity |].
  split; [| split; [| split; [| split]]].
  - unfold Transaction.total_price. apply to_int_truncates.
  - apply Hrounds.
  - intros d' Hd'. unfold Transaction.total_price.
    rewrite (rounds_to_context_unique _ _ _ _ _ Hd' (Hrounds (price t) (quantity t))).
    apply to_int_truncates.
  - intros Hsig. unfold Transaction.total_price.
    rewrite mul_exact_significant by exact Hsig. symmetry. apply exact_product_is_mul_exact.
  - intros cp dc Hcp Hdc d2 s2 c2 e2. subst d2 s2 c2 e2.
    assert (Hcv : Transaction.get_current_value objects t
                  = Ok (decimal.to_int (decimal.mul dc (quantity t)))).
    { unfold Transaction.get_current_value. rewrite Hcp. cbn [bind].
      assert (Hmul : mul_decimal cp (quantity t) = Ok (decimal.mul dc (quantity t))).
      { destruct cp; cbn in Hdc |- *; congruence. }
      rewrite Hmul. reflexivity. }
    rewrite Hcv. split; [| split; [| split]].
    + rewrite to_int_truncates. reflexivity.
    + apply Hrounds.
    + intros d' Hd'.
      rewrite (rounds_to_context_unique _ _ _ _ _ Hd' (Hrounds dc (quantity t))).
      rewrite to_int_truncates. reflexivity.
    + intros Hsig. rewrite mul_exact_significant by exact Hsig.
      rewrite exact_product_is_mul_exact. reflexivity.
Qed.

(** C8: a falsy price is replaced by 0, so the current value is 0 and a
    buy transaction shows the negated total price; nothing is raised. *)
Theorem falsy_price_absorbed (t : Transaction) (p : Price) :
  Coin.price objects (coin t) (market t) = Ok p ->
  truthy p = false ->
  Transaction.current_price objects t = Ok (PInt 0) /\
  Transaction.get_current_value objects t = Ok 0 /\
  (type t = "buy"%string ->
     Transaction.get_profit_or_loss objects t
       = Ok (DStr (format_comma (- Transaction.total_price t)))).
Proof.
  intros Hlookup Hfalsy.
  assert (Hcp : Transaction.current_price objects t = Ok (PInt 0)).
  { unfold Transaction.current_price. rewrite Hlookup. cbn [bind].
    unfold or_zero. rewrite Hfalsy. reflexivity. }
  assert (Hcv : Transaction.get_current_value objects t = Ok 0).
  { unfold Transaction.get_current_value. rewrite Hcp. cbn [bind mul_decimal].
    rewrite mul_zero_int. reflexivity. }
  repeat split; try assumption.
  intros Hbuy. unfold Transaction.get_profit_or_loss. rewrite Hbuy, Hcv.
  reflexivity.
Qed.

(** C4: a sell transaction shows "-"; a buy transaction shows the current
    value minus the total price, an integer, with thousands separators. *)
Theorem profit_or_loss_display (t : Transaction) :
  (type t = "sell"%string ->
     Transaction.get_profit_or_loss objects t = Ok (DStr "-")) /\
  (type t = "buy"%string ->
     forall cv, Transaction.get_current_value objects t = Ok cv ->
     let z := cv - Transaction.total_price t in
     Transaction.get_profit_or_loss objects t = Ok (DStr (format_comma z)) /\
     exists head tail,
       list_ascii_of_string (format_comma z)
         = (if z <? 0 then ["-"%char] else []) ++ head ++ tail /\
       (1 <= List.length head <= 3)%nat /\ comma_groups tail /\
       strip_commas (head ++ tail) = list_ascii_of_string (digits_of (Z.abs z))).
Proof.
  unfold Transaction.get_profit_or_loss. split.
  - intros ->. reflexivity.
  - intros Hbuy cv Hcv. rewrite Hbuy, Hcv. split; [reflexivity | apply format_comma_thousands].
Qed.

(** ** Transaction: percentage change *)

(** Whatever goes wrong while the current value is computed, it is not a
    division. *)
Lemma get_current_value_no_division (t : Transaction) :
  Transaction.get_current_value objects t <> Raise ZeroDivisionError.
Proof.
  unfold Transaction.get_current_value, Transaction.current_price, Coin.price,
    Exchange.price, Exchange.get_platform.
  destruct (last objects) as [e |]; [| discriminate].
  destruct (String.eqb (name e) ExchangeNameChoices_WALLEX);
    [| destruct (String.eqb (name e) ExchangeNameChoices_BITPIN); [| discriminate]];
    cbn [bind].
  all: match goal with
       | |- context [platform_get_price ?x ?c ?m] =>
           destruct (platform_get_price x c m) as [p | what]
       end; cbn [lift bind]; [| discriminate].
  all: destruct (or_zero p); cbn [mul_decimal bind]; discriminate.
Qed.

Lemma py_truediv_in_range (a b : Z) :
  b <> 0 -> Z.abs a < float_overflow_bound * Z.abs b ->
  py_truediv a b = Ok (float_div_int a b).
Proof.
  intros Hb Hrange. unfold py_truediv.
  destruct (Z.eqb_spec b 0); [contradiction |].
  destruct (Z.leb_spec (float_overflow_bound * Z.abs b) (Z.abs a)); [lia | reflexivity].
Qed.

Lemma py_truediv_nonzero (a b : Z) :
  b <> 0 -> py_truediv a b <> Raise ZeroDivisionError.
Proof.
  intros Hb. unfold py_truediv.
  destruct (Z.eqb_spec b 0); [contradiction |].
  destruct (float_overflow_bound * Z.abs b <=? Z.abs a); discriminate.
Qed.

(** C2: a sell transaction shows "-"; a buy transaction with total price 0
    shows 0 and divides nothing; otherwise it shows
    [round((current value - total price) / total price * 100, 2)]; in no
    case is a division by zero attempted. *)
Theorem change_percentage_safe (t : Transaction) :
  (type t = "sell"%string ->
     Transaction.get_change_percentage objects t = Ok (DStr "-")) /\
  (type t = "buy"%string ->
     (Transaction.total_price t = 0 ->
        Transaction.get_change_percentage objects t = Ok (DInt 0)) /\
     (Transaction.total_price t <> 0 ->
        forall cv, Transaction.get_current_value objects t = Ok cv ->
        let tp := Transaction.total_price t in
        Z.abs (cv - tp) < float_overflow_bound * Z.abs tp ->
        Transaction.get_change_percentage objects t
          = Ok (DFloat (float_round
                          (float_mul (float_div_int (cv - tp) tp) (float_of_int 100)) 2))) /\
     Transaction.get_change_percentage objects t <> Raise ZeroDivisionError).
Proof.
  unfold Transaction.get_change_percentage. split.
  - intros Hsell. rewrite Hsell. reflexivity.
  - intros Hbuy. rewrite Hbuy. cbn match.
    change (String.eqb "buy" TransactionTypeChoices_SELL) with false. cbn match.
    split; [| split].
    + intros Hz. rewrite Hz. reflexivity.
    + intros Hnz cv Hcv Hrange.
      destruct (Z.eqb_spec (Transaction.total_price t) 0); [contradiction |].
      rewrite Hcv. cbn [bind].
      rewrite py_truediv_in_range by assumption. reflexivity.
    + destruct (Z.eqb_spec (Transaction.total_price t) 0) as [| Hnz]; [discriminate |].
      pose proof (get_current_value_no_division t) as Hcv.
      destruct (Transaction.get_current_value objects t) as [cv | e]; cbn [bind].
      * pose proof (py_truediv_nonzero (cv - Transaction.total_price t) _ Hnz) as Hdiv.
        destruct (py_truediv (cv - Transaction.total_price t) (Transaction.total_price t));
          cbn [bind]; [discriminate |].
        intros Heq. apply Hdiv. congruence.
      * intros Heq. apply Hcv. congruence.
Qed.

(** ** Transaction: display *)

Lemma field_eq_true (m : option string) (choice : string) :
  field_eq m choice = true <-> m = Some choice.
Proof.
  unfold field_eq. destruct m as [s |]; [| split; discriminate].
  destruct (String.eqb_spec s choice); split; congruence.
Qed.

Lemma field_eq_false (m : option string) (choice : string) :
  m <> Some choice -> field_eq m choice = false.
Proof.
  intros Hne. destruct (field_eq m choice) eqn:Heq; [| reflexivity].
  apply field_eq_true in Heq. contradiction.
Qed.

Lemma round_rounded_to (d r : Decimal) (n : Z) :
  decimal.round d n = Ok r -> decimal.rounded_to n d r.
Proof.
  intros Hr. destruct (round_nearest d r n Hr) as (He & Hs & _ & Hexact & Hnear).
  repeat split; assumption.
Qed.

Lemma current_price_not_none (t : Transaction) (cp : Price) :
  Transaction.current_price objects t = Ok cp -> cp <> PNone.
Proof.
  unfold Transaction.current_price.
  destruct (Coin.price objects (coin t) (market t)) as [p | e]; cbn [bind]; [| discriminate].
  intros Heq. injection Heq as <-. unfold or_zero.
  destruct p as [| z | d | f]; cbn [truthy]; try discriminate.
  - destruct (negb (z =? 0)); discriminate.
  - destruct (negb (decimal.is_zero d)); discriminate.
  - destruct (negb (float_is_zero f)); discriminate.
Qed.

(** C6: in the "irt" market a price shows as its integer part with
    thousands separators, in any other market as the float of the price
    rounded to two decimals; the current price shows the same way, whether
    it is an int, a Decimal or a float; the quantity shows as the float of
    the quantity rounded to six decimals. *)
Theorem display_formatting (t : Transaction) :
  (market t = Some "irt"%string ->
     Transaction.get_price t
       = Ok (DStr (format_comma
                     (Z.quot (decimal.numerator (price t)) (decimal.denominator (price t)))))
     /\
     (forall cp n, Transaction.current_price objects t = Ok cp -> py_int cp = Ok n ->
        Transaction.get_current_price objects t = Ok (DStr (format_comma n))) /\
     (forall z, Transaction.current_price objects t = Ok (PInt z) ->
        Transaction.get_current_price objects t = Ok (DStr (format_comma z))) /\
     (forall d, Transaction.current_price objects t = Ok (PDecimal d) ->
        Transaction.get_current_price objects t
          = Ok (DStr (format_comma
                        (Z.quot (decimal.numerator d) (decimal.denominator d))))) /\
     (forall f n, Transaction.current_price objects t = Ok (PFloat f) ->
        float_to_int f = Some n ->
        Transaction.get_current_price objects t = Ok (DStr (format_comma n)))) /\
  (market t <> Some "irt"%string ->
     (forall r, decimal.round (price t) 2 = Ok r ->
        decimal.rounded_to 2 (price t) r /\
        Transaction.get_price t = Ok (DFloat (float_of_decimal r))) /\
     (decimal.fits_field 20 10 (price t) ->
        exists r, decimal.round (price t) 2 = Ok r) /\
     (forall cp r f, Transaction.current_price objects t = Ok cp ->
        py_round cp 2 = Ok r -> py_float r = Ok f ->
        Transaction.get_current_price objects t = Ok (DFloat f)) /\
     (forall r, decimal.rounded_half_even_to 2 (price t) r -> decimal.coefZ r < 10 ^ 28 ->
        Transaction.get_price t = Ok (DFloat (float_of_decimal r))) /\
     (forall z, Transaction.current_price objects t = Ok (PInt z) ->
        Z.abs z < float_overflow_bound ->
        Transaction.get_current_price objects t = Ok (DFloat (float_of_int z))) /\
     (forall d r, Transaction.current_price objects t = Ok (PDecimal d) ->
        decimal.rounded_half_even_to 2 d r -> decimal.coefZ r < 10 ^ 28 ->
        Transaction.get_current_price objects t = Ok (DFloat (float_of_decimal r))) /\
     (forall f, Transaction.current_price objects t = Ok (PFloat f) ->
        Transaction.get_current_price objects t = Ok (DFloat (float_round f 2)))) /\
  (forall r, decimal.round (quantity t) 6 = Ok r ->
     decimal.rounded_to 6 (quantity t) r /\
     Transaction.get_quantity t = Ok (DFloat (float_of_decimal r))) /\
  (decimal.fits_field 20 10 (quantity t) ->
     exists r, decimal.round (quantity t) 6 = Ok r) /\
  (forall r, decimal.rounded_half_even_to 6 (quantity t) r -> decimal.coefZ r < 10 ^ 28 ->
     Transaction.get_quantity t = Ok (DFloat (float_of_decimal r))) /\
  (forall cp, Transaction.current_price objects t = Ok cp -> cp <> PNone).
Proof.
  unfold Transaction.get_price, Transaction.get_current_price, Transaction.get_quantity.
  split; [| split; [| split; [| split; [| split]]]].
  - intros Hm. apply (field_eq_true _ MarketChoices_TOMAN) in Hm. rewrite Hm.
    split; [| split; [| split; [| split]]].
    + rewrite to_int_truncates. reflexivity.
    + intros cp n Hcp Hn. rewrite Hcp. cbn [bind]. rewrite Hn. reflexivity.
    + intros z Hcp. rewrite Hcp. reflexivity.
    + intros d Hcp. rewrite Hcp. cbn [bind py_int]. rewrite to_int_truncates. reflexivity.
    + intros f n Hcp Hn. rewrite Hcp. cbn [bind py_int]. rewrite Hn. reflexivity.
  - intros Hm. rewrite (field_eq_false _ MarketChoices_TOMAN Hm).
    split; [| split; [| split; [| split; [| split; [| split]]]]].
    + intros r Hr. split; [apply round_rounded_to, Hr |]. rewrite Hr. reflexivity.
    + intros Hfits. apply (round_fits_field _ 20 10 2 Hfits); unfold decimal.prec; lia.
    + intros cp r f Hcp Hr Hf. rewrite Hcp. cbn [bind]. rewrite Hr. cbn [bind].
      rewrite Hf. reflexivity.
    + intros r Hr Hfit. rewrite (round_complete _ _ _ Hr Hfit). reflexivity.
    + intros z Hcp Hrange. rewrite Hcp. cbn [bind py_round py_float].
      change (round_int z 2) with z.
      destruct (Z.ltb_spec (Z.abs z) float_overflow_bound); [reflexivity | lia].
    + intros d r Hcp Hr Hfit. rewrite Hcp. cbn [bind py_round].
      rewrite (round_complete _ _ _ Hr Hfit). reflexivity.
    + intros f Hcp. rewrite Hcp. reflexivity.
  - intros r Hr. split; [apply round_rounded_to, Hr |]. rewrite Hr. reflexivity.
  - intros Hfits. apply (round_fits_field _ 20 10 6 Hfits); unfold decimal.prec; lia.
  - intros r Hr Hfit. rewrite (round_complete _ _ _ Hr Hfit). reflexivity.
  - apply current_price_not_none.
Qed.

(** C7: with a declared type, a transaction is a buy or a sell and not
    both; no market is both the toman and the tether market. *)
Theorem buy_sell_exclusive (t : Transaction) :
  (type t ∈ TransactionTypeChoices_choices ->
     (type t = "buy"%string /\ Transaction.is_buy_transaction t = true
        /\ Transaction.is_sell_transaction t = false) \/
     (type t = "sell"%string /\ Transaction.is_buy_transaction t = false
        /\ Transaction.is_sell_transaction t = true)) /\
  (Transaction.is_toman_market t && Transaction.is_usdt_market t = false).
Proof.
  unfold Transaction.is_buy_transaction, Transaction.is_sell_transaction,
    Transaction.is_toman_market, Transaction.is_usdt_market. split.
  - unfold TransactionTypeChoices_choices. intros Hin.
    apply elem_of_cons in Hin as [Hb | Hin];
      [| apply elem_of_cons in Hin as [Hs | Hin]; [| inversion Hin]].
    + left. rewrite Hb. repeat split.
    + right. rewrite Hs. repeat split.
  - destruct (field_eq (market t) MarketChoices_TOMAN) eqn:Htoman; [| reflexivity].
    apply field_eq_true in Htoman. rewrite Htoman. reflexivity.
Qed.

(** ** Transaction: platform id *)

(** With a market, the platform id is the lowercased join of the six
    components. *)
Lemma construct_platform_id_with_market (t : Transaction) (m : string) :
  market t = Some m ->
  Transaction.construct_platform_id t
  = Ok (lower (join "|" [ str_jdate (jdate t); code (coin t); m; type t;
                          float_repr (float_of_decimal (quantity t));
                          float_repr (float_of_decimal (price t)) ])).
Proof.
  intros Hm. unfold Transaction.construct_platform_id, Transaction.platform_id_components.
  rewrite Hm. reflexivity.
Qed.

(** Two transactions that agree on the six components get the same answer. *)
Lemma construct_platform_id_deterministic (t1 t2 : Transaction) :
  Transaction.platform_id_components t1 = Transaction.platform_id_components t2 ->
  Transaction.construct_platform_id t1 = Transaction.construct_platform_id t2.
Proof. unfold Transaction.construct_platform_id. intros ->. reflexivity. Qed.

(** C9: a transaction without a market (the field is nullable) has no
    platform id: joining the components raises [TypeError]. *)
Theorem construct_platform_id_no_market (t : Transaction) :
  market t = None -> Transaction.construct_platform_id t = Raise TypeError.
Proof.
  intros Hm. unfold Transaction.construct_platform_id, Transaction.platform_id_components.
  rewrite Hm. reflexivity.
Qed.

End properties.

(** ** Importer *)

Section importer_properties.
Context {bm : BaseModel}.
Import transaction.

Lemma run_all (cbs : list Callback) (w : World) :
  let w' := foldl (fun w' cb => run cb w') w cbs in
  heap w' = heap w /\ table w' = table w /\ atomic_blocks w' = atomic_blocks w /\
  run_on_commit w' = run_on_commit w /\
  queue w' = queue w ++ (delivered (heap w) <$> cbs).
Proof.
  revert w. induction cbs as [| cb cbs IH]; intros w; cbn [foldl fmap list_fmap].
  - rewrite app_nil_r. auto.
  - destruct (IH (run cb w)) as (Hh & Ht & Hb & Hr & Hq).
    cbn zeta in *. rewrite Hh, Ht, Hb, Hr, Hq. cbn [run heap table atomic_blocks run_on_commit queue].
    rewrite <- app_assoc. auto.
Qed.

Lemma filter_keeps_all {A : Type} (P : A -> Prop) `{!forall x, Decision (P x)} (l : list A) :
  Forall P l -> filter P l = l.
Proof.
  induction 1 as [| x l Hx Hl IH]; [reflexivity |].
  rewrite filter_cons_True by assumption. f_equal. exact IH.
Qed.

(** What [save] has done when it reaches the [super().save] call: a block is
    open, exactly one callback has been added and none has run. *)
Lemma save_registers_one (self : ref) (w : World) :
  let w2 := on_commit (process_importer_delay self) (atomic_enter w) in
  in_atomic_block w2 = true /\
  atomic_blocks w2 = (next_sid w, table w) :: atomic_blocks w /\
  run_on_commit w2
    = run_on_commit w ++ [(next_sid w :: (atomic_blocks w).*1, process_importer_delay self)] /\
  queue w2 = queue w /\ heap w2 = heap w /\ table w2 = table w.
Proof. cbn. repeat split. Qed.

(** The save succeeds outside any block: it commits, and the job is sent
    once, with the primary key the object has after the save. *)
Lemma save_commits (self : ref) (w : World) h t :
  consistent w -> atomic_blocks w = [] ->
  Model_save self (heap w) (table w) = (h, t, None) ->
  Importer.save self w
  = (mkWorld h t [] (S (next_sid w)) [] (queue w ++ [h !! self ≫= importer_pk]), Ok tt).
Proof.
  intros (_ & _ & Hidle) Hblocks Hsave. specialize (Hidle Hblocks).
  unfold Importer.save, on_commit, atomic_enter.
  cbn [atomic_blocks heap table]. rewrite Hsave, Hblocks, Hidle. reflexivity.
Qed.

(** The save succeeds inside a block: the callback stays pending. *)
Lemma save_pending (self : ref) (w : World) h t b bs :
  atomic_blocks w = b :: bs ->
  Model_save self (heap w) (table w) = (h, t, None) ->
  Importer.save self w
  = (mkWorld h t (b :: bs) (S (next_sid w))
       (run_on_commit w ++ [(next_sid w :: (b :: bs).*1, process_importer_delay self)])
       (queue w), Ok tt).
Proof.
  intros Hblocks Hsave. unfold Importer.save, on_commit, atomic_enter.
  cbn [atomic_blocks heap table]. rewrite Hsave, Hblocks. reflexivity.
Qed.

(** The save raises: the table is as before, the callback is gone, no job
    is sent and the exception goes on to the caller. *)
Lemma save_rolls_back (self : ref) (w : World) h t e :
  consistent w ->
  Model_save self (heap w) (table w) = (h, t, Some e) ->
  Importer.save self w
  = (mkWorld h (table w) (atomic_blocks w) (S (next_sid w)) (run_on_commit w) (queue w),
     Raise e).
Proof.
  intros (_ & Hfresh & Hidle) Hsave. unfold Importer.save, on_commit, atomic_enter.
  cbn [atomic_blocks heap table]. rewrite Hsave.
  unfold atomic_rollback, set_store. cbn [atomic_blocks heap table run_on_commit next_sid queue].
  destruct (atomic_blocks w) as [| b bs] eqn:Hblocks.
  - rewrite (Hidle eq_refl). reflexivity.
  - rewrite filter_app, filter_cons_False, filter_nil, app_nil_r.
    + rewrite filter_keeps_all; [reflexivity |].
      eapply Forall_impl; [exact Hfresh |]. intros [sids cb] Hlt Hin. cbn in *.
      rewrite Forall_forall in Hlt. specialize (Hlt _ Hin). lia.
    + cbn. intros Hnot. apply Hnot. left.
Qed.

(** A rollback leaves no callback that was registered inside the block. *)
Lemma rollback_drops_registered (w : World) sid snapshot blocks hook :
  atomic_blocks w = (sid, snapshot) :: blocks ->
  sid ∈ hook.1 ->
  hook ∉ run_on_commit (atomic_rollback w).
Proof.
  intros Hblocks Hin. unfold atomic_rollback. rewrite Hblocks.
  destruct blocks; cbn [run_on_commit].
  - apply not_elem_of_nil.
  - intros Hhook. apply list_elem_of_filter in Hhook as [Hnot _]. contradiction.
Qed.

(** Leaving an inner block normally runs nothing and keeps what is pending. *)
Lemma release_keeps_pending (w : World) b b' blocks :
  atomic_blocks w = b :: b' :: blocks ->
  run_on_commit (atomic_exit w) = run_on_commit w /\
  queue (atomic_exit w) = queue w /\
  atomic_blocks (atomic_exit w) = b' :: blocks.
Proof. intros Hblocks. unfold atomic_exit. rewrite Hblocks. repeat split. Qed.

(** [save] keeps the connection consistent. *)
Lemma save_consistent (self : ref) (w : World) :
  consistent w -> consistent (Importer.save self w).1.
Proof.
  intros Hcons. pose proof Hcons as (Hblocks & Hhooks & Hidle).
  destruct (Model_save self (heap w) (table w)) as [[h t] [e |]] eqn:Hsave.
  - rewrite (save_rolls_back self w h t e Hcons Hsave). cbn [fst].
    unfold consistent. cbn [atomic_blocks run_on_commit next_sid].
    split; [| split; [| exact Hidle]].
    + eapply Forall_impl; [exact Hblocks |]. intros b Hb. cbn in *. lia.
    + eapply Forall_impl; [exact Hhooks |]. intros hook Hh. cbn in *.
      eapply Forall_impl; [exact Hh |]. intros sid Hs. cbn in *. lia.
  - destruct (atomic_blocks w) as [| b bs] eqn:Hopen.
    + rewrite (save_commits self w h t Hcons Hopen Hsave). cbn [fst].
      unfold consistent. cbn [atomic_blocks run_on_commit next_sid].
      repeat split; constructor.
    + rewrite (save_pending self w h t b bs Hopen Hsave). cbn [fst].
      unfold consistent. cbn [atomic_blocks run_on_commit next_sid].
      split; [| split; [| discriminate]].
      * eapply Forall_impl; [exact Hblocks |]. intros b' Hb. cbn in *. lia.
      * apply Forall_app. split.
        -- eapply Forall_impl; [exact Hhooks |]. intros hook Hh. cbn in *.
           eapply Forall_impl; [exact Hh |]. intros sid Hs. cbn in *. lia.
        -- constructor; [| constructor]. cbn [fst]. constructor; [lia |].
           apply Forall_fmap. eapply Forall_impl; [exact Hblocks |].
           intros b' Hb. cbn in *. lia.
Qed.

(** C5: [save] opens a block and registers exactly one callback before the
    record is saved; the job is sent once, after the outermost commit, with
    the importer's primary key; a save that raises, or an enclosing block
    that rolls back, sends nothing; the table ends as [super().save] left
    it. *)
Theorem importer_save_on_commit (self : ref) (w : World) :
  consistent w ->
  let cb := process_importer_delay self in
  let w2 := on_commit cb (atomic_enter w) in
  let w' := (Importer.save self w).1 in
  (in_atomic_block w2 = true /\
   run_on_commit w2 = run_on_commit w ++ [(next_sid w :: (atomic_blocks w).*1, cb)] /\
   queue w2 = queue w) /\
  (forall h t, Model_save self (heap w) (table w) = (h, t, None) ->
     (Importer.save self w).2 = Ok tt /\
     heap w' = h /\ table w' = t /\ atomic_blocks w' = atomic_blocks w /\
     (in_atomic_block w = false ->
        run_on_commit w' = [] /\ queue w' = queue w ++ [h !! self ≫= importer_pk]) /\
     (in_atomic_block w = true ->
        run_on_commit w' = run_on_commit w ++ [(next_sid w :: (atomic_blocks w).*1, cb)] /\
        queue w' = queue w /\
        (forall b, atomic_blocks w = [b] ->
           queue (atomic_exit w')
           = queue w ++ (delivered h <$> (run_on_commit w).*2) ++ [h !! self ≫= importer_pk]) /\
        queue (atomic_rollback w') = queue w /\
        (next_sid w :: (atomic_blocks w).*1, cb) ∉ run_on_commit (atomic_rollback w'))) /\
  (forall h t e, Model_save self (heap w) (table w) = (h, t, Some e) ->
     (Importer.save self w).2 = Raise e /\
     heap w' = h /\ table w' = table w /\ atomic_blocks w' = atomic_blocks w /\
     run_on_commit w' = run_on_commit w /\ queue w' = queue w).
Proof.
  intros Hcons cb w2 w'. subst cb w2 w'.
  split; [| split].
  - destruct (save_registers_one self w) as (Hin & _ & Hreg & Hq & _). auto.
  - intros h t Hsave. destruct (atomic_blocks w) as [| b bs] eqn:Hblocks.
    + rewrite (save_commits self w h t Hcons Hblocks Hsave).
      unfold in_atomic_block. rewrite Hblocks. cbn.
      repeat split; try reflexivity; discriminate.
    + rewrite (save_pending self w h t b bs Hblocks Hsave).
      unfold in_atomic_block. rewrite Hblocks.
      cbn [fst snd heap table atomic_blocks run_on_commit queue].
      repeat split; try reflexivity; try discriminate.
      * intros b' Hone. injection Hone as -> ->.
        unfold atomic_exit. cbn [atomic_blocks heap table next_sid run_on_commit queue].
        destruct (run_all (run_on_commit w ++ [([next_sid w; b'.1], process_importer_delay self)]).*2
                    (mkWorld h t [] (S (next_sid w)) [] (queue w))) as (_ & _ & _ & _ & Hq).
        cbn zeta in Hq. cbn [fmap list_fmap] in *. rewrite Hq. cbn [queue heap].
        rewrite !fmap_app. reflexivity.
      * unfold atomic_rollback. cbn [atomic_blocks heap table next_sid run_on_commit queue].
        destruct b as [sid snapshot]. destruct bs; reflexivity.
      * unfold atomic_rollback. cbn [atomic_blocks heap table next_sid run_on_commit queue].
        destruct b as [sid snapshot]. destruct bs as [| b' bs]; cbn [run_on_commit].
        -- apply not_elem_of_nil.
        -- intros Hin. apply list_elem_of_filter in Hin as [Hnot _].
           apply Hnot. cbn. right. left.
  - intros h t e Hsave. rewrite (save_rolls_back self w h t e Hcons Hsave).
    cbn. repeat split.
Qed.

End importer_properties.

(** ** The model at concrete inputs *)

Lemma get_platform_dispatch_witness :
  Exchange.get_platform wallex_exchange = Ok Wallex /\
  Exchange.get_platform bitpin_exchange = Ok Bitpin /\
  Exchange.get_platform other_exchange = Raise (Exception "Exchange name is not valid") /\
  Exchange.price (pl := steady_platforms) other_exchange btc (Some "irt"%string)
    = Raise (Exception "Exchange name is not valid").
Proof.
  pose proof (get_platform_dispatch (pl := steady_platforms)
                wallex_exchange btc (Some "irt"%string)) as (Hw & _ & _).
  pose proof (get_platform_dispatch (pl := steady_platforms)
                bitpin_exchange btc (Some "irt"%string)) as (_ & Hb & _).
  pose proof (get_platform_dispatch (pl := steady_platforms)
                other_exchange btc (Some "irt"%string)) as (_ & _ & Ho).
  destruct (Hw eq_refl) as (Hw1 & _).
  destruct (Hb eq_refl) as (Hb1 & _).
  destruct (Ho ltac:(discriminate) ltac:(discriminate)) as (Ho1 & Ho2 & _).
  repeat split; assumption.
Defined.

Lemma coin_price_last_exchange_witness :
  Coin.price (pl := steady_platforms) [] btc (Some "irt"%string) = Raise AttributeError /\
  Coin.price (pl := steady_platforms) [other_exchange; wallex_exchange] btc (Some "irt"%string)
    = Exchange.price (pl := steady_platforms) wallex_exchange btc (Some "irt"%string) /\
  (exists e, last [other_exchange; wallex_exchange] = Some e /\
             e ∈ [other_exchange; wallex_exchange] /\
             (name e = "wallex"%string \/ name e = "bitpin"%string)) /\
  Coin.get_price (pl := steady_platforms) [wallex_exchange] btc (Some "irt"%string)
    = Ok "65,000/1"%string.
Proof.
  pose proof (coin_price_last_exchange (pl := steady_platforms) [] btc (Some "irt"%string))
    as (_ & Hnone & _).
  pose proof (coin_price_last_exchange (pl := steady_platforms)
                [other_exchange; wallex_exchange] btc (Some "irt"%string))
    as (Hlast & _ & Hvalid & _).
  pose proof (coin_price_last_exchange (pl := steady_platforms)
                [wallex_exchange] btc (Some "irt"%string))
    as (_ & _ & _ & Hfmt).
  split; [exact (proj1 (Hnone eq_refl)) |].
  split; [exact (Hlast wallex_exchange eq_refl) |].
  split; [exact (Hvalid _ eq_refl) |].
  exact (Hfmt _ _ eq_refl eq_refl).
Defined.

(** Two amounts the price and quantity fields can hold whose total price is
    not the truncated exact product: the exact product is
    9999999999.99999999999999999999, which the context rounds to 10000000000
    before [int()] sees it. *)
Lemma total_price_not_exact :
  decimal.fits_field 20 10 just_below /\ decimal.fits_field 20 10 just_above /\
  Transaction.total_price (sample_transaction "buy" (Some "usdt"%string) just_below just_above)
    = 10000000000 /\
  decimal.exact_product_truncated just_below just_above = 9999999999 /\
  Transaction.total_price (sample_transaction "buy" (Some "usdt"%string) just_below just_above)
    <> decimal.exact_product_truncated just_below just_above.
Proof.
  split; [| split; [| split; [| split]]].
  - vm_compute. intuition discriminate.
  - vm_compute. intuition discriminate.
  - vm_compute. reflexivity.
  - vm_compute. reflexivity.
  - vm_compute. discriminate.
Qed.

Lemma total_price_rounded_product_witness :
  Transaction.total_price
    (sample_transaction "buy" (Some "irt"%string)
       (decimal.make false 35000000000000000000 (-10)) (decimal.make false 5000000000 (-10)))
    = decimal.exact_product_truncated
        (decimal.make false 35000000000000000000 (-10)) (decimal.make false 5000000000 (-10)) /\
  Transaction.total_price
    (sample_transaction "buy" (Some "irt"%string)
       (decimal.make false 99999999997000000000 (-10))
       (decimal.make false 10000000010000000000 (-10)))
    = 10000000009699999999 /\
  Transaction.total_price
    (sample_transaction "buy" (Some "usdt"%string) just_below just_above) = 10000000000 /\
  Transaction.get_current_value (pl := steady_platforms) [wallex_exchange] bought
    = Ok (decimal.exact_product_truncated (decimal.make false 65000 0) (quantity bought)).
Proof.
  pose proof (total_price_rounded_product (pl := steady_platforms) [wallex_exchange]
                (sample_transaction "buy" (Some "irt"%string)
                   (decimal.make false 35000000000000000000 (-10))
                   (decimal.make false 5000000000 (-10))))
    as (_ & _ & _ & _ & Hexact & _).
  pose proof (total_price_rounded_product (pl := steady_platforms) [wallex_exchange]
                (sample_transaction "buy" (Some "irt"%string)
                   (decimal.make false 99999999997000000000 (-10))
                   (decimal.make false 10000000010000000000 (-10))))
    as (_ & _ & _ & _ & Hlong & _).
  pose proof (total_price_rounded_product (pl := steady_platforms) [wallex_exchange]
                (sample_transaction "buy" (Some "usdt"%string) just_below just_above))
    as (_ & _ & _ & Hfixed & _).
  pose proof (total_price_rounded_product (pl := steady_platforms) [wallex_exchange] bought)
    as (_ & _ & _ & _ & _ & Hcv).
  split; [| split; [| split]].
  - apply Hexact. exists 175, 27. vm_compute. intuition (discriminate || reflexivity).
  - refine (eq_trans (Hlong _) eq_refl).
    exists 100000000096999999997, 19. vm_compute. intuition (discriminate || reflexivity).
  - refine (eq_trans (Hfixed (decimal.make false (10 ^ 27) (-17)) _) eq_refl).
    right. exists 2, (10 ^ 28). vm_compute. intuition (discriminate || reflexivity).
  - refine (proj2 (proj2 (proj2 (Hcv (PDecimal (decimal.make false 65000 0)) _
                                   eq_refl eq_refl))) _).
    exists 13, 4. vm_compute. intuition (discriminate || reflexivity).
Defined.

Lemma falsy_price_absorbed_witness :
  Transaction.current_price (pl := silent_platforms) [wallex_exchange] bought = Ok (PInt 0) /\
  Transaction.get_current_value (pl := silent_platforms) [wallex_exchange] bought = Ok 0 /\
  Transaction.get_profit_or_loss (pl := silent_platforms) [wallex_exchange] bought
    = Ok (DStr "-3,000").
Proof.
  destruct (falsy_price_absorbed (pl := silent_platforms) [wallex_exchange] bought PNone
              eq_refl eq_refl) as (Hcp & Hcv & Hpl).
  split; [exact Hcp |]. split; [exact Hcv |]. exact (Hpl eq_refl).
Defined.

Lemma profit_or_loss_display_witness :
  Transaction.get_profit_or_loss (pl := steady_platforms) [wallex_exchange] sold
    = Ok (DStr "-") /\
  Transaction.get_profit_or_loss (pl := steady_platforms) [wallex_exchange] bought
    = Ok (DStr "127,000").
Proof.
  split.
  - exact (proj1 (profit_or_loss_display (pl := steady_platforms) [wallex_exchange] sold)
             eq_refl).
  - exact (proj1 (proj2 (profit_or_loss_display (pl := steady_platforms) [wallex_exchange]
                           bought) eq_refl 130000 eq_refl)).
Defined.

Lemma change_percentage_safe_witness :
  Transaction.get_change_percentage (pl := steady_platforms) [wallex_exchange] sold
    = Ok (DStr "-") /\
  Transaction.get_change_percentage (pl := steady_platforms) [wallex_exchange] bought_nothing
    = Ok (DInt 0) /\
  Transaction.get_change_percentage (pl := steady_platforms) [wallex_exchange] bought
    = Ok (DFloat (float_round
                    (float_mul (float_div_int (130000 - 3000) 3000) (float_of_int 100)) 2)).
Proof.
  split; [| split].
  - exact (proj1 (change_percentage_safe (pl := steady_platforms) [wallex_exchange] sold)
             eq_refl).
  - exact (proj1 (proj2 (change_percentage_safe (pl := steady_platforms) [wallex_exchange]
                           bought_nothing) eq_refl) eq_refl).
  - refine (proj1 (proj2 (proj2 (change_percentage_safe (pl := steady_platforms)
                                   [wallex_exchange] bought) eq_refl)) _ 130000 eq_refl _).
    + vm_compute. discriminate.
    + vm_compute. reflexivity.
Defined.

Lemma display_formatting_witness :
  Transaction.get_price (fl := exact_floats) bought = Ok (DStr "1,500") /\
  Transaction.get_current_price (pl := steady_platforms) [wallex_exchange] bought
    = Ok (DStr "65,000") /\
  Transaction.get_price (fl := exact_floats) bought_tether
    = Ok (DFloat (float_of_decimal (decimal.make false 268 (-2)))) /\
  Transaction.get_quantity (fl := exact_floats) bought_tether
    = Ok (DFloat (float_of_decimal (decimal.make false 1234568 (-6)))) /\
  Transaction.get_current_price (pl := fine_platforms) [wallex_exchange] bought
    = Ok (DStr "2") /\
  Transaction.get_current_price (pl := fine_platforms) [wallex_exchange] bought_tether
    = Ok (DFloat (float_of_decimal (decimal.make false 268 (-2)))) /\
  Transaction.get_current_price (pl := silent_platforms) [wallex_exchange] bought_tether
    = Ok (DFloat (float_of_int 0)) /\
  Transaction.get_current_price (pl := float_platforms) [wallex_exchange] bought_tether
    = Ok (@DFloat exact_floats (@float_round exact_floats (1 # 2)%Q 2)).
Proof.
  pose proof (display_formatting (pl := steady_platforms) [wallex_exchange] bought)
    as (Hirt & _).
  pose proof (display_formatting (pl := steady_platforms) [wallex_exchange] bought_tether)
    as (_ & Hother & Hqty & _).
  pose proof (display_formatting (pl := fine_platforms) [wallex_exchange] bought)
    as (Hfine_irt & _).
  pose proof (display_formatting (pl := fine_platforms) [wallex_exchange] bought_tether)
    as (_ & Hfine & _).
  pose proof (display_formatting (pl := silent_platforms) [wallex_exchange] bought_tether)
    as (_ & Hsilent & _).
  pose proof (display_formatting (pl := float_platforms) [wallex_exchange] bought_tether)
    as (_ & Hfloat & _).
  destruct (Hirt eq_refl) as (Hprice & Hcurrent & _).
  destruct (Hother ltac:(discriminate)) as (Hrounded & _).
  destruct (Hfine_irt eq_refl) as (_ & _ & _ & Hdec_irt & _).
  destruct (Hfine ltac:(discriminate)) as (_ & _ & _ & _ & _ & Hdec & _).
  destruct (Hsilent ltac:(discriminate)) as (_ & _ & _ & _ & Hint & _).
  destruct (Hfloat ltac:(discriminate)) as (_ & _ & _ & _ & _ & _ & Hflt).
  split; [exact Hprice |].
  split; [exact (Hcurrent _ 65000 eq_refl eq_refl) |].
  split; [exact (proj2 (Hrounded _ eq_refl)) |].
  split; [exact (proj2 (Hqty _ eq_refl)) |].
  split; [exact (Hdec_irt _ eq_refl) |].
  split.
  - refine (Hdec (decimal.make false 2675 (-3)) (decimal.make false 268 (-2)) eq_refl _ _).
    + vm_compute. intuition (discriminate || reflexivity).
    + vm_compute. reflexivity.
  - split; [| exact (Hflt _ eq_refl)].
    refine (Hint 0 eq_refl _). vm_compute. reflexivity.
Defined.

Lemma buy_sell_exclusive_witness :
  Transaction.is_buy_transaction bought = true /\
  Transaction.is_sell_transaction bought = false.
Proof.
  destruct (proj1 (buy_sell_exclusive bought) ltac:(left))
    as [(_ & Hb & Hs) | (Habs & _)].
  - split; assumption.
  - discriminate Habs.
Defined.

Lemma construct_platform_id_no_market_witness :
  Transaction.construct_platform_id (pl := steady_platforms) no_market = Raise TypeError.
Proof.
  exact (construct_platform_id_no_market (pl := steady_platforms) no_market eq_refl).
Defined.

Lemma importer_save_on_commit_witness :
  (Importer.save (bm := inserting_save) 0%nat idle_world).2 = Ok tt /\
  transaction.queue (Importer.save (bm := inserting_save) 0%nat idle_world).1 = [Some 1] /\
  transaction.queue (Importer.save (bm := inserting_save) 0%nat busy_world).1 = [] /\
  transaction.queue
    (transaction.atomic_exit (Importer.save (bm := inserting_save) 0%nat busy_world).1)
    = [Some 1] /\
  transaction.queue
    (transaction.atomic_rollback (Importer.save (bm := inserting_save) 0%nat busy_world).1)
    = [] /\
  (Importer.save (bm := failing_save) 0%nat idle_world).2
    = Raise (DatabaseError "IntegrityError") /\
  transaction.queue (Importer.save (bm := failing_save) 0%nat idle_world).1 = [].
Proof.
  assert (Hidle : transaction.consistent idle_world).
  { repeat split; constructor. }
  assert (Hbusy : transaction.consistent busy_world).
  { split; [| split].
    - repeat constructor.
    - constructor.
    - discriminate. }
  pose proof (importer_save_on_commit (bm := inserting_save) 0%nat idle_world Hidle)
    as (_ & Htop & _).
  pose proof (importer_save_on_commit (bm := inserting_save) 0%nat busy_world Hbusy)
    as (_ & Hnested & _).
  pose proof (importer_save_on_commit (bm := failing_save) 0%nat idle_world Hidle)
    as (_ & _ & Hfail).
  destruct (Htop _ _ eq_refl) as (Hok & _ & _ & _ & Hcommit & _).
  destruct (Hcommit eq_refl) as (_ & Hsent).
  destruct (Hnested _ _ eq_refl) as (_ & _ & _ & _ & _ & Hpending).
  destruct (Hpending eq_refl) as (_ & Hquiet & Hlater & Hnever & _).
  destruct (Hfail _ _ _ eq_refl) as (Hraise & _ & _ & _ & _ & Hnone).
  split; [exact Hok |]. split; [exact Hsent |]. split; [exact Hquiet |].
  split; [exact (Hlater _ eq_refl) |]. split; [exact Hnever |].
  split; [exact Hraise | exact Hnone].
Defined.

(** A valid row is not enough for [Coin.price]: the last row decides. *)
Example coin_price_last_row_decides :
  Coin.price (pl := steady_platforms) [wallex_exchange; other_exchange] btc (Some "irt"%string)
  = Raise (Exception "Exchange name is not valid").
Proof. reflexivity. Qed.

(** The shape of a platform id; the two float texts are those of
    [exact_floats], not Python's. *)
Example platform_id_example :
  Transaction.construct_platform_id (pl := steady_platforms) bought
  = Ok "none|btc|irt|buy|2/1|1500/1"%string.
Proof. vm_compute. reflexivity. Qed.

(** ** Checks against the Python interpreter *)

Example mul_rounds_to_precision :
  decimal.mul just_below just_above = decimal.make false (10 ^ 27) (-17).
Proof. vm_compute. reflexivity. Qed.

Example format_comma_examples :
  format_comma (-1234567) = "-1,234,567"%string /\
  format_comma 1000 = "1,000"%string /\
  format_comma 999 = "999"%string /\
  format_comma 0 = "0"%string /\
  format_comma (-100) = "-100"%string.
Proof. vm_compute. repeat split. Qed.

Example round_half_even_examples :
  decimal.round (decimal.make false 1005 (-3)) 2 = Ok (decimal.make false 100 (-2)) /\
  decimal.round (decimal.make false 2675 (-3)) 2 = Ok (decimal.make false 268 (-2)) /\
  decimal.round (decimal.make true 1 (-3)) 2 = Ok (decimal.make true 0 (-2)) /\
  decimal.round (decimal.make false 1 3) 2 = Ok (decimal.make false 100000 (-2)) /\
  decimal.round (decimal.make false 1 30) 2 = Raise InvalidOperation.
Proof. vm_compute. repeat split. Qed.

Example to_int_examples :
  decimal.to_int (decimal.make true 19 (-1)) = -1 /\
  decimal.to_int (decimal.make false 1 3) = 1000 /\
  decimal.to_int (decimal.make true 5 (-1)) = 0.
Proof. vm_compute. repeat split. Qed.


(** * Further properties *)

(** ** Reading formatted integers back *)

Lemma string_of_uint_no_minus (d : Decimal.uint) :
  Forall (fun c => c <> "-"%char) (list_ascii_of_string (NilEmpty.string_of_uint d)).
Proof.
  induction d; cbn [NilEmpty.string_of_uint list_ascii_of_string];
    constructor; (discriminate || assumption).
Qed.

Lemma digits_of_head (n : Z) :
  exists c rest, digits_of n = String c rest /\ Ascii.eqb c "-" = false.
Proof.
  unfold digits_of, NilZero.string_of_uint.
  pose proof (to_uint_not_nil (Z.to_N n)) as Hnn.
  pose proof (string_of_uint_no_minus (N.to_uint (Z.to_N n))) as Hall.
  destruct (N.to_uint (Z.to_N n)) as [| d | d | d | d | d | d | d | d | d | d];
    [congruence | ..];
    cbn [NilEmpty.string_of_uint]; eexists _, _; (split; [reflexivity | reflexivity]).
Qed.

(** [int(str(z))] is [z]. *)
Lemma read_int_str (z : Z) : read_int (int_str z) = Some z.
Proof.
  unfold int_str. destruct (Z.ltb_spec z 0) as [Hneg | Hpos].
  - cbn [read_int]. change (Ascii.eqb "-" "-") with true. cbn match.
    unfold digits_of. rewrite NilZero.usu by apply to_uint_not_nil.
    cbn [option_map]. rewrite DecimalN.Unsigned.of_to. f_equal. lia.
  - destruct (digits_of_head z) as (c & rest & Heq & Hc).
    pose proof (digits_of_roundtrip z Hpos) as Hround.
    rewrite Heq in *. cbn [read_int]. rewrite Hc. exact Hround.
Qed.

(** Taking the commas out of [f"{z:,}"] leaves [str(z)]. *)
Lemma remove_commas_format (z : Z) : remove_commas (format_comma z) = int_str z.
Proof.
  unfold remove_commas, format_comma, int_str.
  pose proof (insert_commas_strip _ (digits_of_no_comma (Z.abs z))) as Hstrip.
  destruct (Z.ltb_spec z 0) as [Hneg | Hpos].
  - cbn [list_ascii_of_string]. rewrite list_ascii_of_string_of_list_ascii.
    unfold strip_commas in *. cbn [List.filter].
    change (negb (Ascii.eqb "-" comma)) with true. cbn match.
    rewrite Hstrip. cbn [string_of_list_ascii].
    rewrite string_of_list_ascii_of_string. reflexivity.
  - rewrite list_ascii_of_string_of_list_ascii, Hstrip, string_of_list_ascii_of_string.
    rewrite Z.abs_eq by lia. reflexivity.
Qed.

(** What is shown with thousands separators can be read back. *)
Lemma format_comma_roundtrip (z : Z) :
  read_int (remove_commas (format_comma z)) = Some z.
Proof. rewrite remove_commas_format. apply read_int_str. Qed.

Lemma format_comma_injective (x y : Z) : format_comma x = format_comma y -> x = y.
Proof.
  intros Heq. pose proof (format_comma_roundtrip x) as Hx.
  rewrite Heq, format_comma_roundtrip in Hx. congruence.
Qed.

Section further_properties.
Context {fl : FloatOps} {pl : Platforms}.
Variable objects : list Exchange.

(** ** Transaction: totals as text *)

(** X1: the total price is shown as text that reads back, commas removed, as
    the total price; two transactions show the same text only when their
    total prices are equal. *)
Theorem total_price_display_reads_back (t t' : Transaction) :
  (exists s, Transaction.get_total_price t = DStr s /\
             read_int (remove_commas s) = Some (Transaction.total_price t)) /\
  (Transaction.get_total_price t = Transaction.get_total_price t' ->
     Transaction.total_price t = Transaction.total_price t').
Proof.
  unfold Transaction.get_total_price. split.
  - eexists. split; [reflexivity | apply format_comma_roundtrip].
  - intros Heq. injection Heq as Heq. apply format_comma_injective, Heq.
Qed.

(** X2: the admin column for the current value shows text that reads back as
    the current value, and fails exactly as the current value fails. *)
Theorem current_value_admin_display (t : Transaction) :
  (forall cv, Transaction.get_current_value objects t = Ok cv ->
     exists s, Transaction.get_current_value_admin objects t = Ok (DStr s) /\
               read_int (remove_commas s) = Some cv) /\
  (forall e, Transaction.get_current_value objects t = Raise e ->
     Transaction.get_current_value_admin objects t = Raise e).
Proof.
  unfold Transaction.get_current_value_admin. split.
  - intros cv Hcv. rewrite Hcv. eexists. split; [reflexivity | apply format_comma_roundtrip].
  - intros e He. rewrite He. reflexivity.
Qed.

(** ** Transaction: when the price lookup goes wrong *)

(** X3: an exception of the price lookup reaches the caller unchanged through
    every property that needs the current price; a sell transaction still
    shows "-" for profit and percentage, and a buy with total price 0 still
    shows 0 percent. *)
Theorem price_error_propagates (t : Transaction) (e : exn) :
  Coin.price objects (coin t) (market t) = Raise e ->
  Transaction.current_price objects t = Raise e /\
  Transaction.get_current_value objects t = Raise e /\
  Transaction.get_current_price objects t = Raise e /\
  Transaction.get_current_value_admin objects t = Raise e /\
  (type t <> "sell"%string ->
     Transaction.get_profit_or_loss objects t = Raise e /\
     (Transaction.total_price t <> 0 ->
        Transaction.get_change_percentage objects t = Raise e) /\
     (Transaction.total_price t = 0 ->
        Transaction.get_change_percentage objects t = Ok (DInt 0))) /\
  (type t = "sell"%string ->
     Transaction.get_profit_or_loss objects t = Ok (DStr "-") /\
     Transaction.get_change_percentage objects t = Ok (DStr "-")).
Proof.
  intros Hlookup.
  assert (Hcp : Transaction.current_price objects t = Raise e).
  { unfold Transaction.current_price. rewrite Hlookup. reflexivity. }
  assert (Hcv : Transaction.get_current_value objects t = Raise e).
  { unfold Transaction.get_current_value. rewrite Hcp. reflexivity. }
  split; [exact Hcp |]. split; [exact Hcv |]. split; [| split; [| split]].
  - unfold Transaction.get_current_price. rewrite Hcp.
    destruct (field_eq (market t) MarketChoices_TOMAN); reflexivity.
  - unfold Transaction.get_current_value_admin. rewrite Hcv. reflexivity.
  - intros Hty.
    assert (Hsell : String.eqb (type t) TransactionTypeChoices_SELL = false).
    { destruct (String.eqb_spec (type t) TransactionTypeChoices_SELL); [contradiction | reflexivity]. }
    unfold Transaction.get_profit_or_loss, Transaction.get_change_percentage.
    rewrite Hsell, Hcv. cbn [bind]. split; [reflexivity |]. split.
    + intros Hnz. destruct (Z.eqb_spec (Transaction.total_price t) 0); [contradiction | reflexivity].
    + intros Hz. rewrite Hz. reflexivity.
  - intros Hty. unfold Transaction.get_profit_or_loss, Transaction.get_change_percentage.
    rewrite Hty. split; reflexivity.
Qed.

(** X4: a nonzero float from the platform cannot be multiplied by the
    Decimal quantity: the current value, its admin column and a buy's profit
    and percentage raise [TypeError], while the current price itself is still
    shown; a zero float is absorbed like a missing price. *)
Theorem current_value_type_error (t : Transaction) (f : float) :
  Coin.price objects (coin t) (market t) = Ok (PFloat f) ->
  (float_is_zero f = false ->
     Transaction.get_current_value objects t = Raise TypeError /\
     Transaction.get_current_value_admin objects t = Raise TypeError /\
     (type t <> "sell"%string ->
        Transaction.get_profit_or_loss objects t = Raise TypeError /\
        (Transaction.total_price t <> 0 ->
           Transaction.get_change_percentage objects t = Raise TypeError)) /\
     (market t <> Some "irt"%string ->
        Transaction.get_current_price objects t = Ok (DFloat (float_round f 2)))) /\
  (float_is_zero f = true ->
     Transaction.get_current_value objects t = Ok 0).
Proof.
  intros Hlookup. split.
  - intros Hnz.
    assert (Hcp : Transaction.current_price objects t = Ok (PFloat f)).
    { unfold Transaction.current_price. rewrite Hlookup. cbn [bind].
      unfold or_zero. cbn [truthy]. rewrite Hnz. reflexivity. }
    assert (Hcv : Transaction.get_current_value objects t = Raise TypeError).
    { unfold Transaction.get_current_value. rewrite Hcp. reflexivity. }
    split; [exact Hcv |]. split; [| split].
    + unfold Transaction.get_current_value_admin. rewrite Hcv. reflexivity.
    + intros Hty.
      assert (Hsell : String.eqb (type t) TransactionTypeChoices_SELL = false).
      { destruct (String.eqb_spec (type t) TransactionTypeChoices_SELL);
          [contradiction | reflexivity]. }
      unfold Transaction.get_profit_or_loss, Transaction.get_change_percentage.
      rewrite Hsell, Hcv. cbn [bind]. split; [reflexivity |].
      intros Htp. destruct (Z.eqb_spec (Transaction.total_price t) 0);
        [contradiction | reflexivity].
    + intros Hm. unfold Transaction.get_current_price.
      rewrite (field_eq_false _ MarketChoices_TOMAN Hm), Hcp. reflexivity.
  - intros Hz. unfold Transaction.get_current_value, Transaction.current_price.
    rewrite Hlookup. cbn [bind]. unfold or_zero. cbn [truthy]. rewrite Hz.
    cbn [negb bind mul_decimal]. rewrite mul_zero_int. reflexivity.
Qed.

(** X5: when the platform quotes exactly the purchase price, the current
    value is the total price and a buy shows a profit of "0". *)
Theorem break_even (t : Transaction) :
  Coin.price objects (coin t) (market t) = Ok (PDecimal (price t)) ->
  Transaction.get_current_value objects t = Ok (Transaction.total_price t) /\
  (type t <> "sell"%string ->
     Transaction.get_profit_or_loss objects t = Ok (DStr "0")).
Proof.
  intros Hlookup.
  assert (Hcv : Transaction.get_current_value objects t = Ok (Transaction.total_price t)).
  { unfold Transaction.get_current_value, Transaction.current_price, Transaction.total_price.
    rewrite Hlookup. cbn [bind]. unfold or_zero. cbn [truthy].
    unfold decimal.is_zero. destruct (Z.eqb_spec (decimal.coefZ (price t)) 0) as [Hz | Hnz];
      cbn [negb mul_decimal bind].
    - rewrite mul_zero_int. f_equal. symmetry. apply to_int_zero.
      unfold decimal.mul, decimal.fix_prec. rewrite Hz, Z.mul_0_l.
      change (0 <? 10 ^ decimal.prec) with true. cbn match. reflexivity.
    - reflexivity. }
  split; [exact Hcv |]. intros Hty.
  unfold Transaction.get_profit_or_loss. rewrite Hcv.
  destruct (String.eqb_spec (type t) TransactionTypeChoices_SELL); [contradiction |].
  cbn [bind]. rewrite Z.sub_diag. reflexivity.
Qed.

(** X6: a missing price ([None]) is shown as 0 by a transaction but makes
    [Coin.get_price] fail: [float(None)] raises [TypeError]. *)
Theorem none_price_coin_fails (t : Transaction) :
  Coin.price objects (coin t) (market t) = Ok PNone ->
  Coin.get_price objects (coin t) (market t) = Raise TypeError /\
  Transaction.current_price objects t = Ok (PInt 0) /\
  (market t = Some "irt"%string ->
     Transaction.get_current_price objects t = Ok (DStr "0")) /\
  (market t <> Some "irt"%string ->
     Transaction.get_current_price objects t = Ok (DFloat (float_of_int 0))).
Proof.
  intros Hlookup.
  assert (Hcp : Transaction.current_price objects t = Ok (PInt 0)).
  { unfold Transaction.current_price. rewrite Hlookup. reflexivity. }
  split; [| split; [exact Hcp | split]].
  - unfold Coin.get_price. rewrite Hlookup. reflexivity.
  - intros Hm. apply (field_eq_true _ MarketChoices_TOMAN) in Hm.
    unfold Transaction.get_current_price. rewrite Hm, Hcp. reflexivity.
  - intros Hm. unfold Transaction.get_current_price.
    rewrite (field_eq_false _ MarketChoices_TOMAN Hm), Hcp. reflexivity.
Qed.

(** X7: a purchase worth less than one unit has total price 0, so its
    percentage is 0 whatever the market does, and no price is looked up. *)
Theorem crumb_has_no_percentage (t : Transaction) :
  let c := decimal.coefZ (price t) * decimal.coefZ (quantity t) in
  let e := decimal.dexp (price t) + decimal.dexp (quantity t) in
  c < 10 ^ decimal.prec -> c < 10 ^ (- e) ->
  Transaction.total_price t = 0 /\
  (type t <> "sell"%string ->
     Transaction.get_change_percentage objects t = Ok (DInt 0)).
Proof.
  intros c e Hsmall Hunit.
  pose proof (coefZ_nonneg (price t)) as Hp. pose proof (coefZ_nonneg (quantity t)) as Hq.
  assert (Hc : 0 <= c) by (subst c; nia).
  assert (Htp : Transaction.total_price t = 0).
  { unfold Transaction.total_price. rewrite mul_exact_small by exact Hsmall.
    unfold decimal.mul_exact, decimal.to_int. fold c. fold e.
    rewrite coefZ_make by exact Hc. cbn [decimal.make decimal.dexp decimal.dsign].
    destruct (Z.leb_spec 0 e) as [He | He].
    - assert (He' : - e <= 0) by lia.
      destruct (Z.eq_dec e 0) as [-> | Hne].
      + change (10 ^ (- 0)) with 1 in Hunit. assert (c = 0) by lia.
        replace c with 0 by lia. destruct (xorb _ _); reflexivity.
      + rewrite Z.pow_neg_r in Hunit by lia. lia.
    - rewrite Z.div_small by lia. destruct (xorb _ _); reflexivity. }
  split; [exact Htp |]. intros Hty.
  unfold Transaction.get_change_percentage. rewrite Htp.
  destruct (String.eqb_spec (type t) TransactionTypeChoices_SELL); [contradiction | reflexivity].
Qed.

End further_properties.

(** ** How far the rounded product can be from the exact one *)

Lemma to_int_nonpositive_exponent (d : Decimal) :
  decimal.dexp d <= 0 ->
  decimal.to_int d
  = if decimal.dsign d then - (decimal.coefZ d / 10 ^ (- decimal.dexp d))
    else decimal.coefZ d / 10 ^ (- decimal.dexp d).
Proof.
  intros He. unfold decimal.to_int.
  destruct (Z.leb_spec 0 (decimal.dexp d)) as [Hz | Hneg]; [| reflexivity].
  assert (Heq : decimal.dexp d = 0) by lia. rewrite Heq.
  change (10 ^ (- 0)) with 1. change (10 ^ 0) with 1.
  rewrite Z.mul_1_r, Z.div_1_r. reflexivity.
Qed.

(** A product the context had to round keeps all [prec] digits. *)
Lemma fix_prec_full (s : bool) (c e : Z) :
  10 ^ decimal.prec <= c ->
  10 ^ (decimal.prec - 1) <= decimal.coefZ (decimal.fix_prec s c e).
Proof.
  intros Hbig. unfold decimal.fix_prec.
  assert (H28 : 0 < 10 ^ decimal.prec) by (apply pow10_pos; unfold decimal.prec; lia).
  assert (H27 : 0 < 10 ^ (decimal.prec - 1)) by (apply pow10_pos; unfold decimal.prec; lia).
  destruct (Z.ltb_spec c (10 ^ decimal.prec)) as [Hsmall | _]; [lia |].
  destruct (digits_bounds c ltac:(lia)) as [[Hlo Hhi] Hone].
  set (n := decimal.digits c) in *.
  assert (Hn : decimal.prec < n).
  { destruct (Z.le_gt_cases n decimal.prec) as [Hle | Hgt]; [| exact Hgt].
    assert (10 ^ n <= 10 ^ decimal.prec) by (apply Z.pow_le_mono_r; lia). lia. }
  set (k := n - decimal.prec) in *.
  assert (Hk : 1 <= k) by (subst k; lia).
  destruct (drop_digits_nearest c k ltac:(lia) Hk) as [[Hq1 Hq2] _].
  set (q := decimal.drop_digits c k) in *.
  assert (Hpk : 0 < 10 ^ k) by (apply pow10_pos; lia).
  assert (Hsplit : 10 ^ (n - 1) = 10 ^ (decimal.prec - 1) * 10 ^ k).
  { rewrite <- Z.pow_add_r by (unfold decimal.prec; lia). f_equal. subst k. lia. }
  assert (Hdiv : 10 ^ (decimal.prec - 1) <= c / 10 ^ k).
  { apply Z.div_le_lower_bound; lia. }
  destruct (Z.eqb_spec q (10 ^ decimal.prec)).
  - rewrite coefZ_make by lia. lia.
  - rewrite coefZ_make by lia. lia.
Qed.

(** Rounding the coefficient moves the integer part by at most one, away
    from zero. *)
Lemma rounded_quotient_close (c c' K E : Z) :
  0 <= c -> 0 <= c' -> 0 <= K <= E ->
  2 * Z.abs (c - c' * 10 ^ K) <= 10 ^ K ->
  c / 10 ^ E <= c' / 10 ^ (E - K) <= c / 10 ^ E + 1.
Proof.
  intros Hc Hc' HK Herr.
  assert (HP : 0 < 10 ^ K) by (apply pow10_pos; lia).
  assert (HD : 0 < 10 ^ (E - K)) by (apply pow10_pos; lia).
  assert (HE : 10 ^ E = 10 ^ K * 10 ^ (E - K)).
  { rewrite <- Z.pow_add_r by lia. f_equal; lia. }
  rewrite HE, <- Z.div_div by lia.
  set (P := 10 ^ K) in *. set (D := 10 ^ (E - K)) in *. set (u := c / P).
  assert (Hu : c' - 1 <= u <= c').
  { subst u. split.
    - apply Z.div_le_lower_bound; lia.
    - assert (c / P < c' + 1) by (apply Z.div_lt_upper_bound; lia). lia. }
  split.
  - apply Z.div_le_mono; lia.
  - assert (Hstep : c' / D <= (u + 1 * D) / D) by (apply Z.div_le_mono; lia).
    rewrite Z.div_add in Hstep by lia. lia.
Qed.

(** X8: for a price and a quantity the two fields can hold, the total price
    is the truncated exact product or one further from zero, never more. *)
Theorem total_price_within_one (t : Transaction) :
  decimal.fits_field 20 10 (price t) ->
  decimal.fits_field 20 10 (quantity t) ->
  let exact := decimal.exact_product_truncated (price t) (quantity t) in
  Z.abs (Transaction.total_price t - exact) <= 1 /\
  Z.abs exact <= Z.abs (Transaction.total_price t).
Proof.
  intros [[Hplo Hphi] Hpc] [[Hqlo Hqhi] Hqc] exact. subst exact.
  pose proof (coefZ_nonneg (price t)) as Hp. pose proof (coefZ_nonneg (quantity t)) as Hq.
  rewrite exact_product_is_mul_exact. unfold Transaction.total_price.
  set (c := decimal.coefZ (price t) * decimal.coefZ (quantity t)).
  set (e := decimal.dexp (price t) + decimal.dexp (quantity t)).
  set (s := xorb (decimal.dsign (price t)) (decimal.dsign (quantity t))).
  assert (Hc : 0 <= c) by (subst c; nia).
  assert (He : - 20 <= e <= 0) by (subst e; lia).
  assert (Hcb : c < 10 ^ (20 - e)).
  { replace (20 - e) with ((20 - 10 - decimal.dexp (price t))
                           + (20 - 10 - decimal.dexp (quantity t))) by (subst e; lia).
    rewrite Z.pow_add_r by lia.
    assert (0 < 10 ^ (20 - 10 - decimal.dexp (price t))) by (apply pow10_pos; lia).
    assert (0 < 10 ^ (20 - 10 - decimal.dexp (quantity t))) by (apply pow10_pos; lia).
    subst c. nia. }
  assert (Hx : decimal.to_int (decimal.mul_exact (price t) (quantity t))
               = if s then - (c / 10 ^ (- e)) else c / 10 ^ (- e)).
  { rewrite to_int_nonpositive_exponent by (cbn; lia).
    unfold decimal.mul_exact. fold c. fold e. fold s. rewrite coefZ_make by exact Hc.
    reflexivity. }
  rewrite Hx.
  assert (Hm : 0 <= c / 10 ^ (- e)).
  { apply Z.div_pos; [exact Hc | apply pow10_pos; lia]. }
  destruct (Z.lt_ge_cases c (10 ^ decimal.prec)) as [Hsmall | Hbig].
  - rewrite mul_exact_small by exact Hsmall. rewrite Hx.
    destruct s; lia.
  - unfold decimal.mul. fold c. fold e. fold s.
    destruct (fix_prec_nearest s c e Hc) as (Hs & Hlt & Hle & Herr & _).
    pose proof (fix_prec_full s c e ltac:(lia)) as Hfull.
    set (d := decimal.fix_prec s c e) in *.
    set (K := decimal.dexp d - e) in *.
    assert (HK0 : 0 <= K) by (subst K; lia).
    assert (HPK : 0 < 10 ^ K) by (apply pow10_pos; lia).
    assert (HKE : K <= - e).
    { destruct (Z.le_gt_cases K (- e)) as [Hok | Hgt]; [exact Hok | exfalso].
      assert (Hmono : 10 ^ (- e + 1) <= 10 ^ K) by (apply Z.pow_le_mono_r; lia).
      rewrite pow10_succ in Hmono by lia.
      assert (Hsplit : 10 ^ (20 - e) = 10 ^ 20 * 10 ^ (- e)).
      { rewrite <- Z.pow_add_r by lia. f_equal; lia. }
      assert (HX : 0 < 10 ^ (- e)) by (apply pow10_pos; lia).
      assert (H27 : 10 ^ (decimal.prec - 1) = 1000000000000000000000000000) by reflexivity.
      assert (H20 : 10 ^ 20 = 100000000000000000000) by reflexivity.
      rewrite H27 in Hfull. rewrite Hsplit, H20 in Hcb.
      set (X := 10 ^ (- e)) in *. set (Y := 10 ^ K) in *.
      assert (Hprod : 1000000000000000000000000000 * Y <= decimal.coefZ d * Y).
      { apply Z.mul_le_mono_nonneg_r; lia. }
      lia. }
    rewrite to_int_nonpositive_exponent by (subst K; lia). rewrite Hs.
    replace (- decimal.dexp d) with (- e - K) by (subst K; lia).
    pose proof (rounded_quotient_close c (decimal.coefZ d) K (- e) Hc
                  (coefZ_nonneg d) ltac:(lia) Herr) as [Hlow Hhigh].
    assert (0 <= decimal.coefZ d / 10 ^ (- e - K)) by lia.
    destruct s; lia.
Qed.

(** ** Lowercasing *)

Lemma ascii_lower_not_upper (c : ascii) : is_ascii_upper (ascii_lower c) = false.
Proof. destruct c as [[] [] [] [] [] [] [] []]; vm_compute; reflexivity. Qed.

Lemma ascii_lower_idempotent (c : ascii) : ascii_lower (ascii_lower c) = ascii_lower c.
Proof. destruct c as [[] [] [] [] [] [] [] []]; vm_compute; reflexivity. Qed.

Lemma lower_no_upper (s : string) :
  Forall (fun c => is_ascii_upper c = false) (list_ascii_of_string (lower s)).
Proof.
  induction s as [| c s IH]; cbn [lower list_ascii_of_string]; constructor.
  - apply ascii_lower_not_upper.
  - exact IH.
Qed.

Lemma lower_idempotent (s : string) : lower (lower s) = lower s.
Proof.
  induction s as [| c s IH]; cbn [lower]; [reflexivity |].
  rewrite ascii_lower_idempotent, IH. reflexivity.
Qed.

Lemma append_nil_l (s : string) : String.append EmptyString s = s.
Proof. reflexivity. Qed.

Lemma append_cons (c : ascii) (a b : string) :
  String.append (String c a) b = String c (String.append a b).
Proof. reflexivity. Qed.

Lemma lower_append (a b : string) :
  lower (String.append a b) = String.append (lower a) (lower b).
Proof.
  induction a as [| c a IH]; cbn [lower]; rewrite ?append_nil_l, ?append_cons;
    [reflexivity |].
  cbn [lower]. rewrite IH. reflexivity.
Qed.

Lemma lower_join (sep : string) (parts : list string) :
  lower (join sep parts) = join (lower sep) (List.map lower parts).
Proof.
  induction parts as [| p [| p' tl] IH]; [reflexivity | reflexivity |].
  change (join sep (p :: p' :: tl))
    with (String.append p (String.append sep (join sep (p' :: tl)))).
  change (join (lower sep) (List.map lower (p :: p' :: tl)))
    with (String.append (lower p)
            (String.append (lower sep) (join (lower sep) (List.map lower (p' :: tl))))).
  rewrite !lower_append, IH. reflexivity.
Qed.

(** ** Text without spaces, and what [__str__] keeps apart *)

Lemma string_of_uint_no_space (d : Decimal.uint) :
  Forall (fun c => c <> " "%char) (list_ascii_of_string (NilEmpty.string_of_uint d)).
Proof.
  induction d; cbn [NilEmpty.string_of_uint list_ascii_of_string];
    constructor; (discriminate || assumption).
Qed.

Lemma digits_of_no_space (n : Z) :
  Forall (fun c => c <> " "%char) (list_ascii_of_string (digits_of n)).
Proof.
  unfold digits_of, NilZero.string_of_uint.
  destruct (N.to_uint (Z.to_N n)) eqn:Hd; try (rewrite <- Hd; apply string_of_uint_no_space).
  cbn. repeat constructor. discriminate.
Qed.

Lemma str_pk_no_space (pk : option Z) :
  Forall (fun c => c <> " "%char) (list_ascii_of_string (str_pk pk)).
Proof.
  destruct pk as [z |]; cbn [str_pk].
  - unfold int_str. destruct (z <? 0); cbn [list_ascii_of_string].
    + constructor; [discriminate | apply digits_of_no_space].
    + apply digits_of_no_space.
  - cbn. repeat constructor; discriminate.
Qed.

(** [str(pk)] reads back as the key: a number for a saved record, nothing
    for [None]. *)
Lemma read_str_pk (pk : option Z) : read_int (str_pk pk) = pk.
Proof.
  destruct pk as [z |]; cbn [str_pk]; [apply read_int_str | reflexivity].
Qed.

Lemma str_pk_injective (pk pk' : option Z) : str_pk pk = str_pk pk' -> pk = pk'.
Proof. intros Heq. rewrite <- (read_str_pk pk), Heq. apply read_str_pk. Qed.

(** Two texts that agree, each cut at its first space, agree part by part. *)
Lemma split_at_first_space (a b x y : string) :
  Forall (fun c => c <> " "%char) (list_ascii_of_string a) ->
  Forall (fun c => c <> " "%char) (list_ascii_of_string b) ->
  String.append a (String " " x) = String.append b (String " " y) ->
  a = b /\ x = y.
Proof.
  revert b. induction a as [| c a IH]; intros b Ha Hb Heq.
  - destruct b as [| c' b]; rewrite ?append_nil_l, ?append_cons in Heq.
    + injection Heq as ->. auto.
    + injection Heq as <- _. cbn in Hb. inversion Hb; congruence.
  - destruct b as [| c' b]; rewrite ?append_nil_l, ?append_cons in Heq.
    + injection Heq as -> _. cbn in Ha. inversion Ha; congruence.
    + injection Heq as -> Heq. cbn in Ha, Hb. inversion Ha; inversion Hb; subst.
      destruct (IH b) as [-> ->]; auto.
Qed.

Lemma append_inv_tail (a b c : string) :
  String.append a c = String.append b c -> a = b.
Proof.
  intros Heq.
  assert (Hl : list_ascii_of_string a ++ list_ascii_of_string c
               = list_ascii_of_string b ++ list_ascii_of_string c).
  { assert (Happ : forall u v, list_ascii_of_string (String.append u v)
                               = list_ascii_of_string u ++ list_ascii_of_string v).
    { intros u v. induction u as [| ch u IHu]; rewrite ?append_nil_l, ?append_cons;
        cbn [list_ascii_of_string app]; [reflexivity | rewrite IHu; reflexivity]. }
    rewrite <- !Happ, Heq. reflexivity. }
  apply app_inv_tail in Hl.
  rewrite <- (string_of_list_ascii_of_string a), Hl. apply string_of_list_ascii_of_string.
Qed.

(** The shape all four [__str__] methods share: a key, " - ", a text, ")". *)
Lemma labelled_injective (pk pk' : option Z) (x y : string) :
  String.append (str_pk pk) (String.append " - " (String.append x ")"))
  = String.append (str_pk pk') (String.append " - " (String.append y ")")) ->
  pk = pk' /\ x = y.
Proof.
  intros Heq.
  change (String.append " - " ?z) with (String " " (String "-" (String " " z))) in Heq.
  apply split_at_first_space in Heq as [Hpk Hrest]; try apply str_pk_no_space.
  injection Hrest as Hrest. split.
  - apply str_pk_injective, Hpk.
  - eapply append_inv_tail, Hrest.
Qed.

(** X9: two exchanges with the same [__str__] are the same record. *)
Theorem exchange_str_injective (e e' : Exchange) :
  Exchange.__str__ e = Exchange.__str__ e' -> e = e'.
Proof.
  unfold Exchange.__str__. intros Heq. injection Heq as Heq.
  apply labelled_injective in Heq as [Hpk Hname].
  destruct e, e'; cbn in *. congruence.
Qed.

(** X10: two coins with the same [__str__] have the same key and code. *)
Theorem coin_str_injective (c c' : Coin) :
  Coin.__str__ c = Coin.__str__ c' -> coin_pk c = coin_pk c' /\ code c = code c'.
Proof.
  unfold Coin.__str__. intros Heq. injection Heq as Heq.
  apply labelled_injective, Heq.
Qed.

(** X11: two importers with the same [__str__] have the same key and file. *)
Theorem importer_str_injective (i i' : Importer) :
  Importer.__str__ i = Importer.__str__ i' ->
  importer_pk i = importer_pk i' /\ file i = file i'.
Proof.
  unfold Importer.__str__. intros Heq. injection Heq as Heq.
  apply labelled_injective, Heq.
Qed.

Lemma choice_no_space (ty : string) :
  ty ∈ TransactionTypeChoices_choices ->
  Forall (fun c => c <> " "%char) (list_ascii_of_string ty).
Proof.
  unfold TransactionTypeChoices_choices. intros Hin.
  apply elem_of_cons in Hin as [-> | Hin];
    [| apply elem_of_cons in Hin as [-> | Hin]; [| inversion Hin]];
    cbn; repeat constructor; discriminate.
Qed.

(** X12: for transactions of a declared type, [__str__] tells apart the key,
    the type and the coin's key and code. *)
Theorem transaction_str_injective (t t' : Transaction) :
  type t ∈ TransactionTypeChoices_choices ->
  type t' ∈ TransactionTypeChoices_choices ->
  Transaction.__str__ t = Transaction.__str__ t' ->
  transaction_pk t = transaction_pk t' /\ type t = type t' /\
  coin_pk (coin t) = coin_pk (coin t') /\ code (coin t) = code (coin t').
Proof.
  intros Hty Hty'. unfold Transaction.__str__. intros Heq. injection Heq as Heq.
  change (String.append " - " ?z) with (String " " (String "-" (String " " z))) in Heq.
  apply split_at_first_space in Heq as [Hpk Hrest]; try apply str_pk_no_space.
  injection Hrest as Hrest.
  apply split_at_first_space in Hrest as [Htype Hcoin]; try (apply choice_no_space; assumption).
  injection Hcoin as Hcoin. apply append_inv_tail in Hcoin.
  apply labelled_injective in Hcoin as [Hcpk Hcode].
  split; [apply str_pk_injective, Hpk |]. auto.
Qed.

Section platform_id_properties.
Context {fl : FloatOps} {pl : Platforms}.

Lemma construct_platform_id_no_market_raises (t : Transaction) :
  market t = None -> Transaction.construct_platform_id t = Raise TypeError.
Proof.
  intros Hm. unfold Transaction.construct_platform_id, Transaction.platform_id_components.
  rewrite Hm. reflexivity.
Qed.

(** X13: a platform id never holds an ASCII capital letter, and lowering it
    again changes nothing. *)
Theorem platform_id_lowercase (t : Transaction) (s : string) :
  Transaction.construct_platform_id t = Ok s ->
  Forall (fun c => is_ascii_upper c = false) (list_ascii_of_string s) /\ lower s = s.
Proof.
  unfold Transaction.construct_platform_id.
  destruct (py_join "|" (Transaction.platform_id_components t)) as [joined | e];
    cbn [bind]; [| discriminate].
  intros Heq. injection Heq as <-. split; [apply lower_no_upper | apply lower_idempotent].
Qed.

(** X14: letter case does not count: two transactions whose six components
    agree once lowered get the same platform id (or both have none). *)
Theorem platform_id_ignores_case (t t' : Transaction) :
  List.map (option_map lower) (Transaction.platform_id_components t)
  = List.map (option_map lower) (Transaction.platform_id_components t') ->
  Transaction.construct_platform_id t = Transaction.construct_platform_id t'.
Proof.
  unfold Transaction.platform_id_components.
  cbn [List.map option_map]. intros Heq.
  injection Heq as Hjdate Hcode Hmarket Htype Hqty Hprice.
  destruct (market t) as [m |] eqn:Hm, (market t') as [m' |] eqn:Hm'; try discriminate.
  - cbn in Hmarket. injection Hmarket as Hmarket.
    rewrite (construct_platform_id_with_market t m Hm),
      (construct_platform_id_with_market t' m' Hm').
    f_equal. rewrite !lower_join. cbn [List.map]. congruence.
  - rewrite (construct_platform_id_no_market_raises t Hm),
      (construct_platform_id_no_market_raises t' Hm'). reflexivity.
Qed.

End platform_id_properties.

Section importer_further.
Context {bm : BaseModel}.
Import transaction.

(** X15: whatever [super().save] does, [save] leaves the connection
    consistent, closes the block it opened, and only ever appends to the jobs
    already sent. *)
Theorem importer_save_invariants (self : ref) (w : World) :
  consistent w ->
  let w' := (Importer.save self w).1 in
  consistent w' /\
  atomic_blocks w' = atomic_blocks w /\
  next_sid w' = S (next_sid w) /\
  exists sent, queue w' = queue w ++ sent /\ (List.length sent <= 1)%nat.
Proof.
  intros Hcons w'. subst w'. split; [apply save_consistent, Hcons |].
  destruct (Model_save self (heap w) (table w)) as [[h t] [e |]] eqn:Hsave.
  - rewrite (save_rolls_back self w h t e Hcons Hsave). cbn.
    repeat split. exists []. rewrite app_nil_r. split; [reflexivity | cbn; lia].
  - destruct (atomic_blocks w) as [| b bs] eqn:Hopen.
    + rewrite (save_commits self w h t Hcons Hopen Hsave). cbn.
      repeat split. eexists. split; [reflexivity | cbn; lia].
    + rewrite (save_pending self w h t b bs Hopen Hsave). cbn.
      repeat split. exists []. rewrite app_nil_r. split; [reflexivity | cbn; lia].
Qed.

(** X16: two saves outside any block send two jobs, in the order of the
    saves, each with the key its object had when its own save committed. *)
Theorem two_saves_two_jobs (a b : ref) (w : World) h1 t1 h2 t2 :
  consistent w -> atomic_blocks w = [] ->
  Model_save a (heap w) (table w) = (h1, t1, None) ->
  Model_save b h1 t1 = (h2, t2, None) ->
  queue (Importer.save b (Importer.save a w).1).1
  = queue w ++ [h1 !! a ≫= importer_pk; h2 !! b ≫= importer_pk].
Proof.
  intros Hcons Hidle Ha Hb.
  rewrite (save_commits a w h1 t1 Hcons Hidle Ha). cbn [fst].
  rewrite (save_commits b _ h2 t2); [| | reflexivity | exact Hb].
  - cbn [fst queue]. rewrite <- app_assoc. reflexivity.
  - repeat split; constructor.
Qed.

(** X17: saves made inside the caller's block send nothing until the block
    commits; then one job per save goes out, in order, each carrying the key
    its object has at that moment, not the one it had when it was saved.  If
    the block rolls back instead, nothing is sent. *)
Theorem pending_jobs_read_key_at_commit (a c : ref) (w : World) b h1 t1 h2 t2 :
  atomic_blocks w = [b] -> run_on_commit w = [] ->
  Model_save a (heap w) (table w) = (h1, t1, None) ->
  Model_save c h1 t1 = (h2, t2, None) ->
  let w2 := (Importer.save c (Importer.save a w).1).1 in
  queue w2 = queue w /\
  (forall h3 t3,
     queue (atomic_exit (set_store h3 t3 w2))
     = queue w ++ [h3 !! a ≫= importer_pk; h3 !! c ≫= importer_pk]) /\
  queue (atomic_rollback w2) = queue w /\
  run_on_commit (atomic_rollback w2) = [].
Proof.
  intros Hopen Hnone Ha Hc w2. subst w2.
  rewrite (save_pending a w h1 t1 b [] Hopen Ha). cbn [fst].
  rewrite (save_pending c _ h2 t2 b []); [| reflexivity | exact Hc].
  cbn [fst queue]. rewrite Hnone. split; [reflexivity |]. split; [| split].
  - intros h3 t3. cbn. rewrite <- app_assoc. reflexivity.
  - destruct b. reflexivity.
  - destruct b. reflexivity.
Qed.

(** X18: a save that fails inside the caller's block takes back only its own
    job: the job of an earlier save in the same block is still sent when the
    block commits, and the table is what the earlier save left. *)
Theorem failed_save_spares_earlier_jobs (a c : ref) (w : World) b h1 t1 h2 t2 e :
  consistent w -> atomic_blocks w = [b] -> run_on_commit w = [] ->
  Model_save a (heap w) (table w) = (h1, t1, None) ->
  Model_save c h1 t1 = (h2, t2, Some e) ->
  let r := Importer.save c (Importer.save a w).1 in
  r.2 = Raise e /\
  table r.1 = t1 /\
  queue (atomic_exit r.1) = queue w ++ [h2 !! a ≫= importer_pk].
Proof.
  intros Hcons Hopen Hnone Ha Hc r. subst r.
  pose proof (save_consistent a w Hcons) as Hcons1.
  rewrite (save_pending a w h1 t1 b [] Hopen Ha) in *. cbn [fst] in *.
  rewrite (save_rolls_back c _ h2 t2 e Hcons1 Hc).
  cbn [fst snd table queue heap atomic_blocks run_on_commit next_sid].
  rewrite Hnone. repeat split.
Qed.

End importer_further.

(** ** The sign of a profit *)

Lemma insert_commas_head (c : ascii) (tl : list ascii) :
  exists rest, insert_commas (c :: tl) = c :: rest.
Proof.
  cbn [insert_commas].
  destruct ((0 <? List.length tl)%nat && (List.length tl mod 3 =? 0)%nat); eauto.
Qed.

(** [f"{z:,}"] starts with a minus sign exactly for the negative numbers. *)
Lemma format_comma_sign (z : Z) :
  (exists rest, format_comma z = String "-" rest) <-> z < 0.
Proof.
  unfold format_comma. destruct (Z.ltb_spec z 0) as [Hneg | Hpos].
  - split; [intros _; exact Hneg | intros _; eauto].
  - destruct (digits_of_head (Z.abs z)) as (c & tl & Heq & Hc). rewrite Heq.
    cbn [list_ascii_of_string].
    destruct (insert_commas_head c (list_ascii_of_string tl)) as (rest & Hrest).
    rewrite Hrest. cbn [string_of_list_ascii]. split; [| lia].
    intros (r & Hr). injection Hr as -> _. discriminate Hc.
Qed.

Section profit_sign.
Context {fl : FloatOps} {pl : Platforms}.
Variable objects : list Exchange.

(** X19: the profit-or-loss text of a buy starts with a minus sign exactly
    when the current value is below the total price, and reads back, commas
    removed, as their difference. *)
Theorem loss_shows_minus (t : Transaction) (cv : Z) :
  type t <> "sell"%string ->
  Transaction.get_current_value objects t = Ok cv ->
  exists s,
    Transaction.get_profit_or_loss objects t = Ok (DStr s) /\
    read_int (remove_commas s) = Some (cv - Transaction.total_price t) /\
    ((exists rest, s = String "-" rest) <-> cv < Transaction.total_price t).
Proof.
  intros Hty Hcv. unfold Transaction.get_profit_or_loss. rewrite Hcv.
  destruct (String.eqb_spec (type t) TransactionTypeChoices_SELL); [contradiction |].
  cbn [bind]. eexists. split; [reflexivity |]. split; [apply format_comma_roundtrip |].
  rewrite format_comma_sign. lia.
Qed.

End profit_sign.

(** ** The further properties at concrete inputs *)

Lemma total_price_display_reads_back_witness :
  Transaction.total_price bought = Transaction.total_price sold.
Proof.
  exact (proj2 (total_price_display_reads_back (fl := exact_floats) bought sold) eq_refl).
Defined.

Lemma current_value_admin_display_witness :
  exists s,
    Transaction.get_current_value_admin (pl := steady_platforms) [wallex_exchange] bought
      = Ok (DStr s) /\
    read_int (remove_commas s) = Some 130000.
Proof.
  exact (proj1 (current_value_admin_display (pl := steady_platforms) [wallex_exchange] bought)
           130000 eq_refl).
Defined.

Lemma price_error_propagates_witness :
  Transaction.get_current_value (pl := steady_platforms) [] bought = Raise AttributeError /\
  Transaction.get_profit_or_loss (pl := steady_platforms) [] bought = Raise AttributeError /\
  Transaction.get_change_percentage (pl := steady_platforms) [] bought = Raise AttributeError /\
  Transaction.get_change_percentage (pl := steady_platforms) [] bought_nothing = Ok (DInt 0) /\
  Transaction.get_profit_or_loss (pl := steady_platforms) [] sold = Ok (DStr "-").
Proof.
  pose proof (price_error_propagates (pl := steady_platforms) [] bought AttributeError eq_refl)
    as (_ & Hcv & _ & _ & Hbuy & _).
  pose proof (price_error_propagates (pl := steady_platforms) [] bought_nothing AttributeError
                eq_refl) as (_ & _ & _ & _ & Hnothing & _).
  pose proof (price_error_propagates (pl := steady_platforms) [] sold AttributeError eq_refl)
    as (_ & _ & _ & _ & _ & Hsell).
  destruct (Hbuy ltac:(discriminate)) as (Hpl & Hpct & _).
  destruct (Hnothing ltac:(discriminate)) as (_ & _ & Hzero).
  split; [exact Hcv |]. split; [exact Hpl |].
  split; [apply Hpct; vm_compute; discriminate |].
  split; [exact (Hzero eq_refl) | exact (proj1 (Hsell eq_refl))].
Defined.

Lemma current_value_type_error_witness :
  Transaction.get_current_value (pl := float_platforms) [wallex_exchange] bought
    = Raise TypeError /\
  Transaction.get_profit_or_loss (pl := float_platforms) [wallex_exchange] bought
    = Raise TypeError.
Proof.
  destruct (current_value_type_error (pl := float_platforms) [wallex_exchange] bought
              (1 # 2)%Q eq_refl) as (Hnonzero & _).
  destruct (Hnonzero eq_refl) as (Hcv & _ & Hbuy & _).
  split; [exact Hcv | exact (proj1 (Hbuy ltac:(discriminate)))].
Defined.

Lemma break_even_witness :
  Transaction.get_current_value (pl := flat_platforms) [wallex_exchange] bought = Ok 3000 /\
  Transaction.get_profit_or_loss (pl := flat_platforms) [wallex_exchange] bought
    = Ok (DStr "0").
Proof.
  destruct (break_even (pl := flat_platforms) [wallex_exchange] bought eq_refl) as (Hcv & Hpl).
  split; [exact Hcv | apply Hpl; discriminate].
Defined.

Lemma none_price_coin_fails_witness :
  Coin.get_price (pl := silent_platforms) [wallex_exchange] btc (Some "irt"%string)
    = Raise TypeError /\
  Transaction.get_current_price (pl := silent_platforms) [wallex_exchange] bought
    = Ok (DStr "0").
Proof.
  destruct (none_price_coin_fails (pl := silent_platforms) [wallex_exchange] bought eq_refl)
    as (Hcoin & _ & Hirt & _).
  split; [exact Hcoin | exact (Hirt eq_refl)].
Defined.

Lemma crumb_has_no_percentage_witness :
  Transaction.total_price bought_crumb = 0 /\
  Transaction.get_change_percentage (pl := steady_platforms) [] bought_crumb = Ok (DInt 0).
Proof.
  destruct (crumb_has_no_percentage (pl := steady_platforms) [] bought_crumb
              ltac:(vm_compute; reflexivity) ltac:(vm_compute; reflexivity)) as (Htp & Hpct).
  split; [exact Htp | apply Hpct; discriminate].
Defined.

Lemma total_price_within_one_witness :
  let t := sample_transaction "buy" (Some "usdt"%string) just_below just_above in
  Z.abs (Transaction.total_price t
         - decimal.exact_product_truncated (price t) (quantity t)) <= 1.
Proof.
  intros t.
  refine (proj1 (total_price_within_one t _ _)).
  - vm_compute. intuition discriminate.
  - vm_compute. intuition discriminate.
Defined.

Lemma exchange_str_injective_witness :
  {| exchange_pk := Some 1; name := "wallex" |} = wallex_exchange.
Proof.
  exact (exchange_str_injective {| exchange_pk := Some 1; name := "wallex" |}
           wallex_exchange eq_refl).
Defined.

Lemma coin_str_injective_witness :
  coin_pk {| coin_pk := Some 1; title := None; code := "BTC"; enable := false;
             icon := None; icon_png := None; icon_background_color := None;
             coin_market := None |} = coin_pk btc.
Proof.
  exact (proj1 (coin_str_injective
                  {| coin_pk := Some 1; title := None; code := "BTC"; enable := false;
                     icon := None; icon_png := None; icon_background_color := None;
                     coin_market := None |} btc eq_refl)).
Defined.

Lemma importer_str_injective_witness :
  file {| importer_pk := None; file := "importer/history.csv"; importer_profile := 7;
          success_count := 3; fail_count := 1; errors := Some "row 4"%string |}
  = file new_importer.
Proof.
  exact (proj2 (importer_str_injective
                  {| importer_pk := None; file := "importer/history.csv";
                     importer_profile := 7; success_count := 3; fail_count := 1;
                     errors := Some "row 4"%string |} new_importer eq_refl)).
Defined.

Lemma transaction_str_injective_witness :
  type bought = type bought_nothing /\ code (coin bought) = code (coin bought_nothing).
Proof.
  destruct (transaction_str_injective bought bought_nothing ltac:(left) ltac:(left) eq_refl)
    as (_ & Hty & _ & Hcode).
  split; assumption.
Defined.

Lemma platform_id_lowercase_witness :
  lower "none|btc|irt|buy|2/1|1500/1" = "none|btc|irt|buy|2/1|1500/1"%string.
Proof.
  exact (proj2 (platform_id_lowercase (pl := steady_platforms) bought
                  "none|btc|irt|buy|2/1|1500/1" eq_refl)).
Defined.

Lemma platform_id_ignores_case_witness :
  Transaction.construct_platform_id (pl := steady_platforms) bought
  = Transaction.construct_platform_id (pl := steady_platforms) bought_lowercase.
Proof.
  exact (platform_id_ignores_case (pl := steady_platforms) bought bought_lowercase eq_refl).
Defined.

Lemma importer_save_invariants_witness :
  transaction.consistent (Importer.save (bm := inserting_save) 0%nat idle_world).1.
Proof.
  refine (proj1 (importer_save_invariants (bm := inserting_save) 0%nat idle_world _)).
  repeat split; constructor.
Defined.

Lemma two_saves_two_jobs_witness :
  transaction.queue
    (Importer.save (bm := inserting_save) 1%nat
       (Importer.save (bm := inserting_save) 0%nat idle_pair).1).1
  = [Some 1; Some 2].
Proof.
  refine (two_saves_two_jobs (bm := inserting_save) 0%nat 1%nat idle_pair _ _ _ _
            _ eq_refl eq_refl eq_refl).
  repeat split; constructor.
Defined.

Lemma pending_jobs_read_key_at_commit_witness :
  let w2 := (Importer.save (bm := inserting_save) 1%nat
               (Importer.save (bm := inserting_save) 0%nat busy_pair).1).1 in
  transaction.queue w2 = [] /\
  transaction.queue (transaction.atomic_exit w2) = [Some 1; Some 2] /\
  transaction.queue (transaction.atomic_exit (transaction.set_store ∅ ∅ w2)) = [None; None] /\
  transaction.queue (transaction.atomic_rollback w2) = [].
Proof.
  intros w2.
  destruct (pending_jobs_read_key_at_commit (bm := inserting_save) 0%nat 1%nat busy_pair
              _ _ _ _ _ eq_refl eq_refl eq_refl eq_refl)
    as (Hquiet & Hcommit & Hrollback & _).
  split; [exact Hquiet |].
  split; [exact (Hcommit (transaction.heap w2) (transaction.table w2)) |].
  split; [exact (Hcommit ∅ ∅) | exact Hrollback].
Defined.

Lemma failed_save_spares_earlier_jobs_witness :
  let r := Importer.save (bm := first_only_save) 1%nat
             (Importer.save (bm := first_only_save) 0%nat busy_pair).1 in
  r.2 = Raise (DatabaseError "IntegrityError") /\
  transaction.queue (transaction.atomic_exit r.1) = [Some 1].
Proof.
  intros r.
  assert (Hbusy : transaction.consistent busy_pair).
  { split; [| split]; [repeat constructor | constructor | discriminate]. }
  destruct (failed_save_spares_earlier_jobs (bm := first_only_save) 0%nat 1%nat busy_pair
              _ _ _ _ _ _ Hbusy eq_refl eq_refl eq_refl eq_refl)
    as (Hraise & _ & Hsent).
  split; [exact Hraise | exact Hsent].
Defined.

Lemma loss_shows_minus_witness :
  exists s,
    Transaction.get_profit_or_loss (pl := silent_platforms) [wallex_exchange] bought
      = Ok (DStr s) /\
    read_int (remove_commas s) = Some (- 3000) /\
    exists rest, s = String "-" rest.
Proof.
  destruct (loss_shows_minus (pl := silent_platforms) [wallex_exchange] bought 0
              ltac:(discriminate) eq_refl) as (s & Hs & Hread & Hsign).
  exists s. split; [exact Hs |]. split; [exact Hread |].
  apply Hsign. vm_compute. reflexivity.
Defined.
